(** * Exam-helper agents: orchestrator, explainer and learner

    A shallow embedding of the three agent modules
    ([orchestrator_agent.py], [explainer_agent.py], [learner_agent.py])
    and the properties their [process_query] methods and the helper
    [_extract_text_from_message] satisfy. *)

From Stdlib Require Import String Ascii NArith ZArith Lia DecimalString.
From stdpp Require Import base option list gmap strings fin_maps.

Local Open Scope N_scope.

(** ** Python strings

    A Python [str] is a sequence of Unicode code points.  Literals of the
    source files are UTF-8 text, which [py] decodes the way the Python
    reader does. *)

Definition codepoint := N.
Definition pystr := list codepoint.

Fixpoint utf8_decode (pending : nat) (acc : N) (bs : list N) : pystr :=
  match bs with
  | [] => []
  | b :: rest =>
      match pending with
      | O =>
          if b <? 128 then b :: utf8_decode 0 0 rest
          else if b <? 224 then utf8_decode 1 (b mod 32) rest
          else if b <? 240 then utf8_decode 2 (b mod 16) rest
          else utf8_decode 3 (b mod 8) rest
      | S O => (acc * 64 + b mod 64) :: utf8_decode 0 0 rest
      | S p => utf8_decode p (acc * 64 + b mod 64) rest
      end
  end.

Definition py (s : string) : pystr :=
  utf8_decode 0 0 (map N_of_ascii (list_ascii_of_string s)).

(** [str.isspace] on one code point: the code points CPython's
    [Py_UNICODE_ISSPACE] accepts. *)
Definition isspace (c : codepoint) : bool :=
  ((9 <=? c) && (c <=? 13)) || ((28 <=? c) && (c <=? 32))
  || (c =? 133) || (c =? 160) || (c =? 5760)
  || ((8192 <=? c) && (c <=? 8202))
  || (c =? 8232) || (c =? 8233) || (c =? 8239) || (c =? 8287) || (c =? 12288).

Fixpoint lstrip (s : pystr) : pystr :=
  match s with
  | [] => []
  | c :: rest => if isspace c then lstrip rest else s
  end.

Definition rstrip (s : pystr) : pystr := rev (lstrip (rev s)).

(** [s.strip()] *)
Definition strip (s : pystr) : pystr := rstrip (lstrip s).

(** [sep.join(parts)] *)
Fixpoint join (sep : pystr) (parts : list pystr) : pystr :=
  match parts with
  | [] => []
  | [p] => p
  | p :: rest => p ++ sep ++ join sep rest
  end.

(** Truth value of a [str]: non-empty. *)
Definition str_truthy (s : pystr) : bool :=
  match s with [] => false | _ :: _ => true end.

Fixpoint starts_with (pre s : pystr) : bool :=
  match pre, s with
  | [], _ => true
  | _ :: _, [] => false
  | a :: pre', b :: s' => (a =? b) && starts_with pre' s'
  end.

(** [sub in s] *)
Fixpoint contains (sub s : pystr) : bool :=
  starts_with sub s ||
  match s with
  | [] => false
  | _ :: s' => contains sub s'
  end.

(** ** Python values *)

Inductive msg_type :=
| Human
| AI
| System
| Tool (name : string).

Set Warnings "-register-all".

Inductive pyval :=
| PNone
| PBool (b : bool)
| PInt (z : Z)
| PStr (s : pystr)
| PList (items : list pyval)
| PDict (d : gmap string pyval)
| PMsg (t : msg_type) (content : pyval).

Definition type_name (v : pyval) : string :=
  match v with
  | PNone => "NoneType"
  | PBool _ => "bool"
  | PInt _ => "int"
  | PStr _ => "str"
  | PList _ => "list"
  | PDict _ => "dict"
  | PMsg Human _ => "HumanMessage"
  | PMsg AI _ => "AIMessage"
  | PMsg System _ => "SystemMessage"
  | PMsg (Tool _) _ => "ToolMessage"
  end.

(** ** Exceptions and results

    [exc_is_Exception] tells whether the class derives from [Exception];
    [KeyboardInterrupt], [SystemExit] and [asyncio.CancelledError] derive
    from [BaseException] only.  [exc_str] is what [str(e)] returns. *)

Record exc := { exc_class : string; exc_is_Exception : bool; exc_str : pystr }.

Inductive py_result (A : Type) :=
| Ok (a : A)
| Raise (e : exc).

Arguments Ok {A} a.
Arguments Raise {A} e.

Definition is_ok {A} (r : py_result A) : bool :=
  match r with Ok _ => true | Raise _ => false end.

Definition AttributeError (obj : pyval) (attr : string) : exc :=
  {| exc_class := "AttributeError"; exc_is_Exception := true;
     exc_str := py ("'" ++ type_name obj ++ "' object has no attribute '" ++ attr ++ "'") |}.

Definition KeyError (key : pystr) : exc :=
  {| exc_class := "KeyError"; exc_is_Exception := true;
     exc_str := py "'" ++ key ++ py "'" |}.

Definition IndexError (msg : string) : exc :=
  {| exc_class := "IndexError"; exc_is_Exception := true; exc_str := py msg |}.

Definition TypeError (msg : string) : exc :=
  {| exc_class := "TypeError"; exc_is_Exception := true; exc_str := py msg |}.

Definition ValueError (msg : string) : exc :=
  {| exc_class := "ValueError"; exc_is_Exception := true; exc_str := py msg |}.

(** ** [str.format] with keyword arguments

    Replacement fields [{name}] are looked up among the keyword
    arguments; [{{] and [}}] are escapes. *)

Fixpoint kw_lookup (name : pystr) (kwargs : list (pystr * pystr)) : option pystr :=
  match kwargs with
  | [] => None
  | (k, v) :: rest => if decide (k = name) then Some v else kw_lookup name rest
  end.

Definition lbrace : codepoint := 123.
Definition rbrace : codepoint := 125.

Definition emit (c : codepoint) (r : py_result pystr) : py_result pystr :=
  match r with Ok s => Ok (c :: s) | Raise e => Raise e end.

Definition emit_str (v : pystr) (r : py_result pystr) : py_result pystr :=
  match r with Ok s => Ok (v ++ s) | Raise e => Raise e end.

(** [field = Some n]: inside a replacement field whose name read so far
    is [rev n]. *)
Fixpoint format_from (field : option pystr) (kwargs : list (pystr * pystr))
    (tpl : pystr) : py_result pystr :=
  match field, tpl with
  | None, [] => Ok []
  | None, c :: rest =>
      if c =? lbrace then
        match rest with
        | c' :: rest' =>
            if c' =? lbrace then emit lbrace (format_from None kwargs rest')
            else format_from (Some []) kwargs rest
        | [] => Raise (ValueError "Single '{' encountered in format string")
        end
      else if c =? rbrace then
        match rest with
        | c' :: rest' =>
            if c' =? rbrace then emit rbrace (format_from None kwargs rest')
            else Raise (ValueError "Single '}' encountered in format string")
        | [] => Raise (ValueError "Single '}' encountered in format string")
        end
      else emit c (format_from None kwargs rest)
  | Some _, [] => Raise (ValueError "expected '}' before end of string")
  | Some n, c :: rest =>
      if c =? rbrace then
        match kw_lookup (rev n) kwargs with
        | Some v => emit_str v (format_from None kwargs rest)
        | None => Raise (KeyError (rev n))
        end
      else format_from (Some (c :: n)) kwargs rest
  end.

Definition format (tpl : pystr) (kwargs : list (pystr * pystr)) : py_result pystr :=
  format_from None kwargs tpl.

(** ** Prompt templates (module constants of the three agent files) *)

Definition ORCHESTRATOR_PROMPT : pystr := py "
You are the ORCHESTRATOR of an AI Learning System.

YOUR PRIMARY RESPONSIBILITIES:
1. Understand the student’s topic and difficulty level
2. Identify their learning intent (basic understanding vs exam preparation)
3. Decide which teaching agent to delegate to
4. Maintain context across follow-up questions
5. Keep your own responses brief — let agents handle teaching

AVAILABLE TOOL AGENTS:

1) explainer_agent  
   - Explains concepts in the simplest possible way  
   - Uses analogies, stories, real-life examples  
   - Teaches like explaining to a 10-year-old  
   - Avoids jargon unless absolutely necessary  

2) learner_agent  
   - Provides in-depth explanations  
   - Includes structured notes  
   - Gives exam-focused content  
   - Provides 16-mark style answers  
   - Includes diagrams (described), bullet points, definitions, and key points  
   - Prepares student for competitive or university exams  

DECISION RULES:

If the student:
- Says “explain simply”, “I don’t understand”, “teach from basics”, “like I’m 5”, or sounds confused → delegate to explainer_agent
- Mentions exams, 16 marks, important questions, university, competitive exams, notes, revision, or deep understanding → delegate to learner_agent
- If unclear → ask:  
  “Would you like a simple explanation or an exam-focused detailed answer?”

CONVERSATION FLOW:

1. First interaction:
   - Greet briefly.
   - Ask what topic they need help with and their goal (understanding vs exams).

2. After user response:
   - Identify intent.
   - Delegate immediately to the correct agent.

3. Follow-ups:
   - Maintain topic continuity.
   - Switch agents only if the user explicitly changes learning style.

IMPORTANT:
- Do NOT explain the concept yourself.
- Do NOT mix both styles.
- Always delegate once intent is clear.
- Keep responses short and directive.
- Focus on routing, not teaching.

CURRENT STATE:
- Intent: {intent}
".

Definition EXPLAINER_AGENT_PROMPT : pystr := py "

## Persona
You are a friendly, patient teacher who explains concepts like you're talking to a small child.  
You love using simple words, tiny stories, and everyday examples.  
You make learning feel safe, fun, and never scary.  
A little humor is welcome — but keep it gentle and cute.


## Instructions
- Explain concepts in **very simple language**
- Assume the listener is a **small kid or complete beginner**
- Use short sentences
- Use relatable, real-life examples
- Avoid big words (unless you explain them immediately)
- Add light humor when appropriate
- Keep responses under **150 words**
- Always end with a friendly question or invitation to ask more


## Chain of Thought 
1. Find the core idea.
2. Remove complicated words.
3. Turn it into a simple real-world example.
4. Add a small fun comparison or joke.
5. Encourage curiosity at the end.

## Few-Shot Examples

### Example 1
**User:** What is an API?  
**Assistant:**  
Imagine a restaurant. You don’t go into the kitchen to cook, right?  
You tell the waiter what you want. The waiter brings your food.  

An API is like that waiter.  
It helps apps talk to each other and pass messages safely.  
No shouting. No confusion. Just polite talking.  

Cool, right? Want another example with games or phones?


### So
Explain everything slowly and kindly.  
Make it feel like story time, not exam time.  
Curious minds welcome. 😊".

Definition LEARNER_AGENT_PROMPT : pystr := py "
PERSONA: 
You are a exam training expert that helps university students understand and present their answers in a proper way in the exam.
You think in two aspects:
- You are deeply trained in explaining concepts in-depth, starting from the why to actually explaining a concept and giving examples
so that students can understand the concept and easily recollect it during the exam.
- You are well-versed in providing the same concept in an exam ready format so that the students can learn it and present it 
in the university exam long answer format that allows them to score maximum marks. 
INSTRUCTIONS: 
- Identify the topic that the user wants to study

- Generate text and diagrams where ever required to explain the concepts relevant to the topic in depth

- After providing an in depth explanation, provide a structured long answer. This long answer must be directly writable in a 
university exam and MUST folow the given format:
1. An introduction
2. If relevant, a section on the core principles. The what, the why etc
3. The main body - This section is the main reason for scoring good marks. This section must be divided into multiple
sub headings and answered in bullet points. Each sub heading and the content below it must be stricty in sync with the question 
asked. 
If the question is theory, then this must cover:
mechanism, characteristic, analysis
If the question is about the working of a system, then this section must cover:
the components, architecture, working, flow
If the question is about comparison, this section must cover:
a table that draws the differences 
If relevant, this section must also contain a neat labelled diagram, followed by a clear explanation of what the diagram depicts. 
- A conclusion section. Depending on the question, this can be about where a certain concept is applied or the advantages or 
disadvantages or a general conclusion based on what is asked in the question. 

- You ensure that the answer is  optimised to score more marks by following these steps:
1. Visible structure with clear definitions wherever required
2. Using and highlighting key words
3. Clear segmentation by using sub headings and writing bullet points under each subheading
4. A neat and labelled diagram
5. Use of standard text book terms and language
6. Spacing, balanced length and equal focus on all sub topics rather than over explaining one sub topic while ignoring the rest
7. A sense of completeness in the answer by providing a applications / advantages / conclusion section at the end 
8. ALWAYS use complete sentences. Your answer must be atleast 2 pages long

CHAIN OF THOUGHT: 
- Understand the question asked 
- Explain the important concepts that are required for the user to understand to lock in this topic. This explaination
is an in depth explaination that convers all relevant concepts to understand the current topic. It is not a shallow one paragraph 
kind of answer. Use diagrams if required. 
- Extract the examinable dimensions from the concept and map them into a structured long-answer format that maximizes mark visibility
- Ensure that the answer that adheres to the university expected format 
- Ensure that the answer is optimised to score maximum marks 
- Review for technical accuracy, clarity and consistency 

TOOLS:
You have access to a tool that retrieves high-quality academic and explanatory content.

Use the tool when:
- The topic requires deeper factual enrichment beyond core textbook knowledge
- You need real-world applications, recent developments, case studies, or authoritative definitions
- The user asks for detailed study material that would benefit from external references

Do NOT use the tool when:
- The concept is a standard university syllabus topic that can be fully explained from your internal knowledge
- The question is purely theoretical and does not require external enrichment
- You already have sufficient information to generate a complete, high-quality exam answer

HOW TO USE THE TOOL OUTPUT:
- Do NOT copy the retrieved content as it is
- Extract only the relevant concepts
- Integrate them into the structured exam-ready answer format
- Ensure the final answer is cohesive and not a collection of pasted text

FEW SHOT EXAMPLES: 
EXAMPLE 1: 
USER:
Explain deadlock, conditions for deadlock and deadlock prevention techniques in detail.

EXAM HELPER:

EXPLANATION TO UNDERSTAND DEADLOCK

Deadlock is a situation in which a group of processes becomes permanently blocked because each process is waiting for a resource 
that is currently held by another process in the same group. This problem typically arises in a multiprogramming environment 
where multiple processes compete for a limited number of resources such as memory, files, semaphores, or I/O devices.

To understand deadlock intuitively, consider two processes where one process holds a printer and waits for a file, 
while another process holds the file and waits for the printer. Since neither process can proceed without the other releasing 
its resource, both processes remain blocked indefinitely. This circular dependency is the fundamental reason behind deadlock.

Deadlock does not occur randomly; it happens only when four specific conditions occur simultaneously. These conditions are 
mutual exclusion, hold and wait, no preemption, and circular wait. If even one of these conditions is eliminated, deadlock 
can be prevented. Operating systems use this principle to design deadlock prevention and avoidance algorithms such as the 
Banker’s algorithm.

Understanding deadlock is important because it reduces system throughput, causes poor resource utilization, and may even 
bring part of the system to a halt.

LONG ANSWER FORMAT:

A deadlock is a condition in an operating system in which a set of processes is permanently blocked because each process is 
holding one or more resources and waiting for additional resources that are currently held by other processes in the set.

Conditions required for deadlock to occour:

The necessary conditions for the occurrence of a deadlock are as follows:

• Mutual exclusion occurs when at least one resource is non-shareable and only one process can use the resource at a time.
• Hold and wait occurs when a process is holding at least one resource and is waiting to acquire additional resources that are currently being held by other processes.
• No preemption means that the operating system cannot forcibly take a resource away from a process and the resource must be released voluntarily.
• Circular wait occurs when a circular chain of processes exists in which each process is waiting for a resource that is held by the next process in the chain.


1. Deadlock System Model:

• The system consists of a finite number of processes and a finite number of resource types, and each resource type has a fixed number of instances.
• A process must request a resource before using it, and after using the resource it must release it so that it can be allocated to other processes.
• If the requested resource is not available, the process enters a waiting state, which may eventually lead to a deadlock condition.

2. Resource Allocation Graph:

• A resource allocation graph is a directed graph used to represent the allocation and request of resources in the system.
• A directed edge from a process to a resource indicates that the process is requesting the resource, while an edge from a resource to a process indicates that the resource has been allocated.
• The presence of a cycle in the graph indicates the possibility of deadlock in the system.

3. Methods for Handling Deadlock:

a) Deadlock Prevention

• Deadlock prevention eliminates one of the necessary conditions so that deadlock cannot occur in the system.
• For example, the hold and wait condition can be eliminated by requiring processes to request all required resources at once.

b) Deadlock Avoidance

• Deadlock avoidance ensures that the system always remains in a safe state by using algorithms such as the Banker’s algorithm.
• Resource allocation is done only if it does not lead the system into an unsafe state.

c) Deadlock Detection and Recovery

• In this method, deadlocks are allowed to occur and then detected using techniques such as the wait-for graph.
• Recovery is done either by terminating processes or by preempting resources.

Conclusion:

Deadlock is a major problem in operating systems that affects system performance and resource utilization. It can be handled effectively using prevention, avoidance, detection, and recovery techniques.

EXAMPLE 2: 
USER:
What is normalisation ? Why is it essential ? Explain about all the normal forms in detail.

EXAM HELPER:

EXPLANATION TO UNDERSTAND NORMALIZATION

Normalization is a systematic process used in relational database design to minimize redundancy and eliminate undesirable
characteristics such as insertion, deletion, and update anomalies. When data is stored in an unstructured manner in a 
single large table, multiple problems arise. The same piece of information may be stored repeatedly, which leads to
wastage of storage space and difficulty in maintaining consistency.

For example, if a student table contains both student details and department details, the department information will 
be repeated for every student belonging to that department. If the department location changes, it must be updated in 
multiple rows. If one row is missed, the database becomes inconsistent. Normalization solves this problem by 
decomposing a large relation into smaller relations and establishing relationships among them using keys.

The process of normalization is based on functional dependencies, which describe the relationship between attributes. 
By analysing these dependencies, the database designer can divide the relations into well-structured tables that
ensure data integrity and reduce redundancy. Normal forms provide a step-by-step approach to achieve this goal.

LONG ANSWER FORMAT:

Normalization is the process of organizing data in a relational database to reduce redundancy and improve data integrity
by decomposing relations based on functional dependencies.

Need for Normalization:

• Normalization reduces data redundancy by storing each data item in only one place.
• It eliminates insertion, deletion, and update anomalies that occur in unnormalized relations.
• It improves data consistency and simplifies database maintenance.

Functional Dependency:

• A functional dependency is a relationship between two attributes in which one attribute uniquely determines another attribute.
• Functional dependencies are used to identify the candidate keys and to decompose relations during normalization.

First Normal Form (1NF):

• A relation is said to be in first normal form if it contains only atomic values and each field contains only a single value.
• Repeating groups and multivalued attributes are eliminated to convert a relation into first normal form.

Second Normal Form (2NF):

• A relation is in second normal form if it is in first normal form and every non-prime attribute is fully functionally 
dependent on the entire primary key.
• Partial dependency is removed by decomposing the relation into smaller relations.

Third Normal Form (3NF):

• A relation is in third normal form if it is in second normal form and there is no transitive dependency.
• Transitive dependency is removed by separating the dependent attributes into a new relation.

Boyce–Codd Normal Form (BCNF):

• A relation is in BCNF if for every functional dependency, the determinant is a super key.
• BCNF is a stronger version of third normal form and removes certain anomalies that are not handled by 3NF.

Advantages of Normalization:

• Normalization reduces data redundancy and improves storage efficiency.
• It eliminates modification anomalies and ensures data consistency.
• It improves the logical organization of the database.

Conclusion:

Normalization is an essential technique in relational database design that organizes data into well-structured relations,
reduces redundancy, and ensures data integrity.

CONVERSATION CONTEXT:
{context}

".

(** ** The outside world

    What the agent modules call and do not define: the chat model
    ([self.model], built by [BaseAgent]), the agent runner of the
    framework ([create_react_agent] / [create_agent] followed by
    [invoke] / [ainvoke]), the tool factories and the context formatter of
    [app.agents.state].  Calls that reach the network may raise; the run
    of a framework agent also reports which model and tool calls it made
    inside its own loop. *)

Record tool := { tool_name : string }.

Record agent := { agent_tools : list tool; agent_prompt : pystr }.

Inductive run_event :=
| RunModelCall
| RunToolCall (name : string) (succeeded : bool).

(** One entry per call that leaves the agent module, with its outcome. *)
Inductive event :=
| EvGenerate (messages : list pyval) (outcome : py_result pyval)
| EvAgentRun (a : agent) (input : gmap string pyval) (inner : list run_event)
    (outcome : py_result (gmap string pyval))
| EvLogError (msg : string) (error : pystr).

Record World := {
  (* [str(obj)] on an object that is not a [str] *)
  py_str : pyval -> pystr;
  (* [app.agents.state.get_conversation_context(state)] *)
  get_conversation_context : gmap string pyval -> pystr;
  (* [app.tools.firecrawl_tool.get_learner_tools()] *)
  get_learner_tools : list tool;
  (* [app.tools.exam_helper_tools.get_agent_tools()] *)
  get_agent_tools : list tool;
  (* [self.model.ainvoke(messages)] *)
  model_ainvoke : list pyval -> py_result pyval;
  (* [agent.invoke(input)]: the calls made inside the run and its outcome *)
  agent_run : agent -> gmap string pyval ->
              list run_event * py_result (gmap string pyval)
}.

(** ** Effects: the caller's state object, the trace of calls, exceptions *)

Record heap := {
  conv_state : option (gmap string pyval);
  trace : list event
}.

Definition record_event (ev : event) (h : heap) : heap :=
  {| conv_state := conv_state h; trace := trace h ++ [ev] |}.

Definition M (A : Type) : Type := heap -> py_result A * heap.

Definition ret {A} (a : A) : M A := fun h => (Ok a, h).

Definition raise {A} (e : exc) : M A := fun h => (Raise e, h).

Definition bind {A B} (m : M A) (k : A -> M B) : M B :=
  fun h =>
    match m h with
    | (Ok a, h') => k a h'
    | (Raise e, h') => (Raise e, h')
    end.

Definition lift {A} (r : py_result A) : M A := fun h => (r, h).

Declare Scope py_scope.
Delimit Scope py_scope with py.
Notation "x <- m ;; k" := (bind m (fun x => k))
  (at level 100, m at next level, right associativity) : py_scope.
Notation "m ;;; k" := (bind m (fun _ => k))
  (at level 100, right associativity) : py_scope.
Local Open Scope py_scope.

(** [try: body except Exception as e: handler e] *)
Definition try_except {A} (body : M A) (handler : exc -> M A) : M A :=
  fun h =>
    match body h with
    | (Ok a, h') => (Ok a, h')
    | (Raise e, h') =>
        if exc_is_Exception e then handler e h' else (Raise e, h')
    end.

(** A call [m] made with the caller's [state] object, from an empty trace. *)
Definition run {A} (m : M A) (state : option (gmap string pyval)) : py_result A * heap :=
  m {| conv_state := state; trace := [] |}.

(** The [state] argument, an object of the caller. *)
Definition the_state : M (option (gmap string pyval)) :=
  fun h => (Ok (conv_state h), h).

(** [logger.error(msg, error=...)] *)
Definition logger_error (msg : string) (error : pystr) : M unit :=
  fun h => (Ok tt, record_event (EvLogError msg error) h).

(** Truth value of [state : Optional[ExamHelperState]]: [None] and the
    empty dict are false. *)
Definition truthy_state (state : option (gmap string pyval)) : option (gmap string pyval) :=
  match state with
  | Some d => if decide (size d = 0%nat) then None else Some d
  | None => None
  end.

(** [obj.content] *)
Definition get_content (obj : pyval) : py_result pyval :=
  match obj with
  | PMsg _ content => Ok content
  | _ => Raise (AttributeError obj "content")
  end.

(** [seq[-1]] *)
Definition last_item (seq : pyval) : py_result pyval :=
  match seq with
  | PList items =>
      match last items with
      | Some x => Ok x
      | None => Raise (IndexError "list index out of range")
      end
  | PStr s =>
      match last s with
      | Some c => Ok (PStr [c])
      | None => Raise (IndexError "string index out of range")
      end
  | PDict d =>
      Raise {| exc_class := "KeyError"; exc_is_Exception := true; exc_str := py "-1" |}
  | other => Raise (TypeError ("'" ++ type_name other ++ "' object is not subscriptable"))
  end.

(** [d[key]] on a dict *)
Definition dict_item (d : gmap string pyval) (key : string) : py_result pyval :=
  match d !! key with
  | Some v => Ok v
  | None => Raise (KeyError (py key))
  end.

(** [d.get(key, default)] *)
Definition dict_get (d : gmap string pyval) (key : string) (default : pyval) : pyval :=
  match d !! key with
  | Some v => v
  | None => default
  end.

Section World.

Context (W : World).

(** [str(v)], also what [format] inserts for a keyword argument. *)
Definition to_str (v : pyval) : pystr :=
  match v with
  | PStr s => s
  | other => py_str W other
  end.

(** *** Learner: [_extract_text_from_message] *)

Definition block_part (block : pyval) : pyval :=
  match block with
  | PDict d => dict_get d "text" (PStr [])
  | PStr s => PStr s
  | other => PStr (py_str W other)
  end.

(** The generator [p for p in parts if p.strip()]: only a [str] has
    [strip]. *)
Fixpoint stripped_parts (parts : list pyval) : py_result (list pystr) :=
  match parts with
  | [] => Ok []
  | PStr p :: rest =>
      match stripped_parts rest with
      | Ok ps => Ok (if str_truthy (strip p) then p :: ps else ps)
      | Raise e => Raise e
      end
  | other :: _ => Raise (AttributeError other "strip")
  end.

Definition _extract_text_from_message (message : pyval) : py_result pyval :=
  match get_content message with
  | Raise e => Raise e
  | Ok content =>
      match content with
      | PList blocks =>
          match stripped_parts (map block_part blocks) with
          | Ok ps => Ok (PStr (join (py "
") ps))
          | Raise e => Raise e
          end
      | _ => Ok content
      end
  end.

(** *** Calls into the world, recorded in the trace *)

(** [await self.model.ainvoke(messages)] *)
Definition model_call (messages : list pyval) : M pyval :=
  fun h =>
    let r := model_ainvoke W messages in
    (r, record_event (EvGenerate messages r) h).

(** [agent.invoke(input)] / [await agent.ainvoke(input)] *)
Definition agent_call (a : agent) (input : gmap string pyval) : M (gmap string pyval) :=
  fun h =>
    let '(inner, r) := agent_run W a input in
    (r, record_event (EvAgentRun a input inner r) h).

(** A dict display [{k1: v1, k2: v2, ...}]: later keys overwrite. *)
Definition dict_literal (items : list (string * pyval)) : gmap string pyval :=
  foldl (fun d kv => <[kv.1 := kv.2]> d) ∅ items.

End World.

(** *** ExplainerAgent *)

Module Explainer.
Section WithWorld.
Context (W : World).

Definition get_result_key : string := "explainer_agent_result".

Definition get_prompt (state : option (gmap string pyval)) : py_result pystr :=
  let context :=
    match truthy_state state with
    | Some d => get_conversation_context W d
    | None => []
    end in
  format EXPLAINER_AGENT_PROMPT [(py "context", context)].

Definition process_query (query : pystr) : M (gmap string pyval) :=
  try_except
    (state <- the_state ;;
     prompt <- lift (get_prompt state) ;;
     let messages := [PMsg System (PStr prompt); PMsg Human (PStr query)] in
     response <- model_call W messages ;;
     content <- lift (get_content response) ;;
     ret (dict_literal [("success", PBool true);
                        (get_result_key, content);
                        ("error", PList [])]))
    (fun e =>
       logger_error "Explainer agent processing failed" (exc_str e) ;;;
       ret (dict_literal [("success", PBool false);
                          (get_result_key, PNone);
                          ("error", PList [PStr (exc_str e)])])).

End WithWorld.
End Explainer.

(** *** LearnerAgent *)

Module Learner.
Section WithWorld.
Context (W : World).

Definition get_result_key : string := "learner_agent_result".

Definition get_prompt (state : option (gmap string pyval)) : py_result pystr :=
  let context :=
    match truthy_state state with
    | Some d => get_conversation_context W d
    | None => []
    end in
  format LEARNER_AGENT_PROMPT [(py "context", context)].

(** [create_agent(model=self.model, tools=..., system_prompt=...)] *)
Definition create_agent (tools : list tool) (system_prompt : pystr) : agent :=
  {| agent_tools := tools; agent_prompt := system_prompt |}.

Definition process_query (query : pystr) : M (gmap string pyval) :=
  try_except
    (state <- the_state ;;
     prompt <- lift (get_prompt state) ;;
     let agent := create_agent (get_learner_tools W) prompt in
     result <- agent_call W agent
                 (dict_literal [("messages", PList [PMsg Human (PStr query)])]) ;;
     messages <- lift (dict_item result "messages") ;;
     final_message <- lift (last_item messages) ;;
     final_output <- lift (_extract_text_from_message W final_message) ;;
     ret (dict_literal [("success", PBool true);
                        (get_result_key, final_output);
                        ("error", PList [])]))
    (fun e =>
       logger_error "Learner agent processing failed" (exc_str e) ;;;
       ret (dict_literal [("success", PBool false);
                          (get_result_key, PNone);
                          ("error", PList [PStr (exc_str e)])])).

End WithWorld.
End Learner.

(** *** OrchestratorAgent *)

Module Orchestrator.
Section WithWorld.
Context (W : World).

Definition get_tools : list tool := get_agent_tools W.

Definition get_result_key : string := "orchestrator_result".

Definition get_prompt (state : option (gmap string pyval)) : py_result pystr :=
  let intent :=
    match truthy_state state with
    | Some d => dict_get d "user_intent" (PStr (py "unknown"))
    | None => PStr (py "unknown")
    end in
  format ORCHESTRATOR_PROMPT [(py "intent", to_str W intent)].

(** [create_react_agent(self.model, tools, prompt=prompt)] *)
Definition create_react_agent (tools : list tool) (prompt : pystr) : agent :=
  {| agent_tools := tools; agent_prompt := prompt |}.

(** The [query] argument is not used by the body. *)
Definition process_query (query : pystr) : M (gmap string pyval) :=
  try_except
    (state <- the_state ;;
     let tools := get_tools in
     prompt <- lift (get_prompt state) ;;
     let agent := create_react_agent tools prompt in
     result <- agent_call W agent
                 (dict_literal
                    [("messages",
                      match truthy_state state with
                      | Some d => dict_get d "messages" (PList [])
                      | None => PList []
                      end)]) ;;
     ret (dict_literal [("success", PBool true);
                        ("orchestrator_result", PDict result);
                        ("messages", dict_get result "messages" (PList []));
                        ("error", PList [])]))
    (fun e =>
       logger_error "Orchestrator processing failed" (exc_str e) ;;;
       ret (dict_literal [("success", PBool false);
                          ("orchestrator_result", PNone);
                          ("error", PList [PStr (exc_str e)])])).

End WithWorld.
End Orchestrator.

(** *** The three agents behind the one [BaseAgent] interface *)

Inductive agent_kind := ExplainerAgent | LearnerAgent | OrchestratorAgent.

Definition get_result_key (k : agent_kind) : string :=
  match k with
  | ExplainerAgent => Explainer.get_result_key
  | LearnerAgent => Learner.get_result_key
  | OrchestratorAgent => Orchestrator.get_result_key
  end.

Definition process_query (W : World) (k : agent_kind) : pystr -> M (gmap string pyval) :=
  match k with
  | ExplainerAgent => Explainer.process_query W
  | LearnerAgent => Learner.process_query W
  | OrchestratorAgent => Orchestrator.process_query W
  end.

(** *** Reading a result envelope *)

Definition succeeded (env : gmap string pyval) : Prop :=
  env !! "success" = Some (PBool true).

Definition failed (env : gmap string pyval) : Prop :=
  env !! "success" = Some (PBool false).

Definition errors_nonempty (env : gmap string pyval) : Prop :=
  ∃ x xs, env !! "error" = Some (PList (x :: xs)).

Definition errors_empty (env : gmap string pyval) : Prop :=
  env !! "error" = Some (PList []).

(** The text-generation capability raised [e] during the calls of a
    trace: directly ([self.model.ainvoke]) or through the framework agent
    that drives it. *)
Definition generation_raised (tr : list event) (e : exc) : Prop :=
  (∃ msgs, EvGenerate msgs (Raise e) ∈ tr)
  ∨ (∃ a input inner, EvAgentRun a input inner (Raise e) ∈ tr).

Definition is_generate (ev : event) : bool :=
  match ev with EvGenerate _ _ => true | _ => false end.

Definition is_agent_run (ev : event) : bool :=
  match ev with EvAgentRun _ _ _ _ => true | _ => false end.

(** The two dict displays every [process_query] returns. *)
Definition success_envelope (key : string) (payload : pyval) : gmap string pyval :=
  dict_literal [("success", PBool true); (key, payload); ("error", PList [])].

Definition failure_envelope (key : string) (e : exc) : gmap string pyval :=
  dict_literal [("success", PBool false); (key, PNone);
                ("error", PList [PStr (exc_str e)])].

Definition heap_of (state : option (gmap string pyval)) (tr : list event) : heap :=
  {| conv_state := state; trace := tr |}.

Definition prompt_of (r : py_result pystr) : pystr :=
  match r with Ok p => p | Raise _ => [] end.

(** [_extract_text_from_message(result["messages"][-1])] as one expression. *)
Definition final_output (W : World) (result : gmap string pyval) : py_result pyval :=
  match dict_item result "messages" with
  | Raise e => Raise e
  | Ok messages =>
      match last_item messages with
      | Raise e => Raise e
      | Ok final_message => _extract_text_from_message W final_message
      end
  end.

(** The request the learner sends to the framework agent. *)
Definition learner_agent (W : World) state : agent :=
  Learner.create_agent (get_learner_tools W) (prompt_of (Learner.get_prompt W state)).

Definition learner_input (q : pystr) : gmap string pyval :=
  dict_literal [("messages", PList [PMsg Human (PStr q)])].

(** The request the orchestrator sends to the framework agent. *)
Definition orchestrator_agent (W : World) state : agent :=
  Orchestrator.create_react_agent (Orchestrator.get_tools W)
    (prompt_of (Orchestrator.get_prompt W state)).

Definition orchestrator_input (state : option (gmap string pyval)) : gmap string pyval :=
  dict_literal
    [("messages",
      match truthy_state state with
      | Some d => dict_get d "messages" (PList [])
      | None => PList []
      end)].

Definition orchestrator_success (result : gmap string pyval) : gmap string pyval :=
  dict_literal [("success", PBool true);
                ("orchestrator_result", PDict result);
                ("messages", dict_get result "messages" (PList []));
                ("error", PList [])].

(** The invariant of a result envelope whose payload sits under [key]. *)
Definition envelope_invariant (key : string) (env : gmap string pyval) : Prop :=
  (failed env → env !! key = Some PNone ∧ errors_nonempty env)
  ∧ (succeeded env → errors_empty env).

(** ** Sample worlds, used to run the agents on concrete inputs *)

(** [str()] for the sample worlds: [None], booleans and integers as
    Python prints them; the [repr]-based text of lists, dicts and message
    objects is not modelled and is a placeholder. *)
Definition sample_str (v : pyval) : pystr :=
  match v with
  | PNone => py "None"
  | PBool true => py "True"
  | PBool false => py "False"
  | PInt z => py (NilZero.string_of_int (Z.to_int z))
  | _ => py "<object>"
  end.

Definition explainer_tool : tool := {| tool_name := "explainer_agent" |}.
Definition learner_tool : tool := {| tool_name := "learner_agent" |}.
Definition search_tool : tool := {| tool_name := "firecrawl_search" |}.

Definition transient_error : exc :=
  {| exc_class := "ConnectionError"; exc_is_Exception := true;
     exc_str := py "503 Service Unavailable" |}.

(** The provider is down: every call that reaches it raises. *)
Definition failing_world : World :=
  {| py_str := sample_str;
     get_conversation_context := fun _ => [];
     get_learner_tools := [search_tool];
     get_agent_tools := [explainer_tool; learner_tool];
     model_ainvoke := fun _ => Raise transient_error;
     agent_run := fun _ _ => ([RunModelCall], Raise transient_error) |}.

Definition sample_answer : pyval := PMsg AI (PStr (py "An API is like a waiter."))%string.

(** The provider answers at once; a framework agent returns the input
    messages followed by that answer. *)
Definition replying_world : World :=
  {| py_str := sample_str;
     get_conversation_context := fun _ => [];
     get_learner_tools := [search_tool];
     get_agent_tools := [explainer_tool; learner_tool];
     model_ainvoke := fun _ => Ok sample_answer;
     agent_run := fun _ input =>
       ([RunModelCall],
        Ok (dict_literal
              [("messages",
                match dict_get input "messages" (PList []) with
                | PList msgs => PList (msgs ++ [sample_answer])
                | _ => PList [sample_answer]
                end)])) |}.

Definition sample_query : pystr := py "What is an API?".

(** Every way a run of [process_query] can end. *)
Inductive run_outcome (k : agent_kind) : py_result (gmap string pyval) → list event → Prop :=
| run_success env tr :
    succeeded env → envelope_invariant (get_result_key k) env →
    (∀ e, ¬ generation_raised tr e) →
    run_outcome k (Ok env) tr
| run_failure e tr :
    exc_is_Exception e = true →
    (∀ e', generation_raised tr e' → e' = e) →
    run_outcome k (Ok (failure_envelope (get_result_key k) e)) tr
| run_propagated e tr :
    exc_is_Exception e = false →
    generation_raised tr e →
    (∀ e', generation_raised tr e' → e' = e) →
    run_outcome k (Raise e) tr.

(** ** [_extract_text_from_message], as described in words

    The newline-join of the ['text'] field of each dict block (the empty
    string when it is missing), of each string block as it is and of
    [str()] of any other block, keeping the parts that contain a
    character that is not whitespace; content that is not a list is
    returned unchanged. *)

Definition contains_non_whitespace (s : pystr) : bool :=
  existsb (fun c => negb (isspace c)) s.

Definition block_text (W : World) (block : pyval) : pystr :=
  match block with
  | PDict d =>
      match d !! "text" with
      | Some v => to_str W v
      | None => []
      end
  | PStr s => s
  | other => py_str W other
  end.

Definition described_text (W : World) (content : pyval) : pyval :=
  match content with
  | PList blocks =>
      PStr (join (py "
") (List.filter contains_non_whitespace (map (block_text W) blocks)))
  | _ => content
  end.

(** A dict block whose ['text'] entry, when there is one, is a [str]. *)
Definition text_is_str (block : pyval) : Prop :=
  match block with
  | PDict d =>
      match d !! "text" with
      | Some (PStr _) | None => True
      | Some _ => False
      end
  | _ => True
  end.

Definition blocks_well_typed (content : pyval) : Prop :=
  match content with
  | PList blocks => Forall text_is_str blocks
  | _ => True
  end.

(** A message whose only block is [{"text": None}]. *)
Definition none_text_message : pyval :=
  PMsg AI (PList [PDict {[ "text" := PNone ]}]).

Definition two_block_message : pyval :=
  PMsg AI (PList [PDict {[ "type" := PStr (py "text"); "text" := PStr (py "Deadlock") ]};
                  PStr (py "   ");
                  PDict {[ "type" := PStr (py "image") ]};
                  PStr (py "is a cycle.")]).

(** ** Reading what a framework agent did

    The framework returns the conversation it was given followed by the
    messages of this turn: the model's tool requests, one [ToolMessage]
    per tool that ran (named after the tool) and the model's final answer. *)

Definition agent_run_raised (tr : list event) (e : exc) : Prop :=
  ∃ a input inner, EvAgentRun a input inner (Raise e) ∈ tr.

(** A tool call failed inside a framework run of the trace. *)
Definition tool_failed (tr : list event) : Prop :=
  ∃ a input inner r name,
    EvAgentRun a input inner r ∈ tr ∧ RunToolCall name false ∈ inner.

Definition is_human (m : pyval) : bool :=
  match m with PMsg Human _ => true | _ => false end.

(** The messages after the last [HumanMessage]. *)
Fixpoint this_turn (msgs : list pyval) : list pyval :=
  match msgs with
  | [] => []
  | m :: rest =>
      if existsb is_human rest then this_turn rest
      else if is_human m then rest else m :: rest
  end.

(** The text of the last [HumanMessage]. *)
Fixpoint utterance (msgs : list pyval) : option pystr :=
  match msgs with
  | [] => None
  | m :: rest =>
      match utterance rest with
      | Some u => Some u
      | None => match m with PMsg Human (PStr u) => Some u | _ => None end
      end
  end.

Definition messages_of (d : gmap string pyval) : list pyval :=
  match dict_get d "messages" (PList []) with
  | PList msgs => msgs
  | _ => []
  end.

Fixpoint first_tool (msgs : list pyval) : option string :=
  match msgs with
  | [] => None
  | PMsg (Tool name) _ :: _ => Some name
  | _ :: rest => first_tool rest
  end.

(** The agent tool that ran in this turn of a framework result. *)
Definition selected_agent (result : gmap string pyval) : option string :=
  first_tool (this_turn (messages_of result)).

(** The agent tool that shows in the [messages] entry of an envelope. *)
Definition envelope_selected (env : gmap string pyval) : option string :=
  match env !! "messages" with
  | Some (PList msgs) => first_tool (this_turn msgs)
  | _ => None
  end.

(** The [user_intent] recorded in the state, if any. *)
Definition prior_intent (state : option (gmap string pyval)) : option pyval :=
  match truthy_state state with
  | Some d => d !! "user_intent"
  | None => None
  end.

(** ** More sample worlds *)

Definition unknown_intent_error : exc :=
  {| exc_class := "UnknownIntentError"; exc_is_Exception := true;
     exc_str := py "no responder registered for intent 'unclear'" |}.

(** The lookup of the responder fails inside the orchestrator's agent. *)
Definition unknown_intent_world : World :=
  {| py_str := sample_str;
     get_conversation_context := fun _ => [];
     get_learner_tools := [search_tool];
     get_agent_tools := [explainer_tool; learner_tool];
     model_ainvoke := fun _ => Ok sample_answer;
     agent_run := fun _ _ => ([RunModelCall], Raise unknown_intent_error) |}.

Definition retrieval_error : exc :=
  {| exc_class := "ConnectionError"; exc_is_Exception := true;
     exc_str := py "Firecrawl request failed: connection refused" |}.

(** The retrieval tool fails and the framework lets its exception out. *)
Definition tool_failure_world : World :=
  {| py_str := sample_str;
     get_conversation_context := fun _ => [];
     get_learner_tools := [search_tool];
     get_agent_tools := [explainer_tool; learner_tool];
     model_ainvoke := fun _ => Ok sample_answer;
     agent_run := fun _ _ =>
       ([RunModelCall; RunToolCall "firecrawl_search" false], Raise retrieval_error) |}.

(** The retrieval tool fails, the framework hands the failure to the model
    as a tool message and the model answers without it. *)
Definition tool_absorbed_world : World :=
  {| py_str := sample_str;
     get_conversation_context := fun _ => [];
     get_learner_tools := [search_tool];
     get_agent_tools := [explainer_tool; learner_tool];
     model_ainvoke := fun _ => Ok sample_answer;
     agent_run := fun _ input =>
       ([RunModelCall; RunToolCall "firecrawl_search" false; RunModelCall],
        Ok (dict_literal
              [("messages",
                PList (messages_of input
                       ++ [PMsg AI (PList []);
                           PMsg (Tool "firecrawl_search") (PStr (py "Error: connection refused"));
                           PMsg AI (PStr (py "Deadlock is a circular wait."))]))])) |}.

Definition recursion_limit_error : exc :=
  {| exc_class := "GraphRecursionError"; exc_is_Exception := true;
     exc_str := py "Recursion limit of 25 reached without hitting a stop condition." |}.

(** The model keeps asking for the tool; the framework gives up at its own
    step limit. *)
Definition recursion_limit_world : World :=
  {| py_str := sample_str;
     get_conversation_context := fun _ => [];
     get_learner_tools := [search_tool];
     get_agent_tools := [explainer_tool; learner_tool];
     model_ainvoke := fun _ => Ok sample_answer;
     agent_run := fun _ _ =>
       (concat (replicate 12 [RunModelCall; RunToolCall "firecrawl_search" true]),
        Raise recursion_limit_error) |}.

(** An orchestrator model that acts on the first decision rule of the
    prompt: when the student says "explain simply" it calls
    [explainer_agent]; otherwise it asks what the student wants. *)
Definition first_rule_world : World :=
  {| py_str := sample_str;
     get_conversation_context := fun _ => [];
     get_learner_tools := [search_tool];
     get_agent_tools := [explainer_tool; learner_tool];
     model_ainvoke := fun _ => Ok sample_answer;
     agent_run := fun _ input =>
       let msgs := messages_of input in
       let u := default [] (utterance msgs) in
       let reply :=
         if contains (py "explain simply") u then
           [PMsg AI (PList []);
            PMsg (Tool "explainer_agent") (PStr (py "Think of it like a game."));
            PMsg AI (PStr (py "Here is a simple explanation."))]
         else
           [PMsg AI (PStr (py "Would you like a simple explanation or an exam-focused detailed answer?"))] in
       ([RunModelCall], Ok (dict_literal [("messages", PList (msgs ++ reply))])) |}.

Definition state_with (u : string) : option (gmap string pyval) :=
  Some {[ "messages" := PList [PMsg Human (PStr (py u))] ]}.

Definition both_signals_utterance : string :=
  "explain simply what deadlock is, I have exams next week".

(** What [first_rule_world] answers to [both_signals_utterance]. *)
Definition both_signals_result : gmap string pyval :=
  dict_literal
    [("messages",
      PList [PMsg Human (PStr (py both_signals_utterance));
             PMsg AI (PList []);
             PMsg (Tool "explainer_agent") (PStr (py "Think of it like a game."));
             PMsg AI (PStr (py "Here is a simple explanation."))])].

(** The task running the explainer is cancelled while it awaits the
    model. *)
Definition cancelled_error : exc :=
  {| exc_class := "CancelledError"; exc_is_Exception := false; exc_str := [] |}.

Definition cancelled_world : World :=
  {| py_str := sample_str;
     get_conversation_context := fun _ => [];
     get_learner_tools := [search_tool];
     get_agent_tools := [explainer_tool; learner_tool];
     model_ainvoke := fun _ => Raise cancelled_error;
     agent_run := fun _ _ => ([RunModelCall], Raise cancelled_error) |}.

(** ** Further readers of prompts, traces and extracted text *)

Definition is_log (ev : event) : bool :=
  match ev with EvLogError _ _ => true | _ => false end.

(** The first argument of [logger.error] in each agent. *)
Definition log_message (k : agent_kind) : string :=
  match k with
  | ExplainerAgent => "Explainer agent processing failed"
  | LearnerAgent => "Learner agent processing failed"
  | OrchestratorAgent => "Orchestrator processing failed"
  end.

(** [get_conversation_context(state) if state else ""] *)
Definition context_of (W : World) (state : option (gmap string pyval)) : pystr :=
  match truthy_state state with
  | Some d => get_conversation_context W d
  | None => []
  end.

(** The text shown after [Intent:] in the orchestrator's prompt. *)
Definition intent_text (W : World) (state : option (gmap string pyval)) : pystr :=
  match prior_intent state with
  | Some v => to_str W v
  | None => py "unknown"
  end.

(** The templates around their one replacement field. *)
Definition learner_prompt_prefix : pystr := take 12124 LEARNER_AGENT_PROMPT.
Definition learner_prompt_suffix : pystr := drop 12133 LEARNER_AGENT_PROMPT.
Definition orchestrator_prompt_prefix : pystr := take 1905 ORCHESTRATOR_PROMPT.
Definition orchestrator_prompt_suffix : pystr := drop 1913 ORCHESTRATOR_PROMPT.

Definition newline : pystr := py "
".

(** Two extracted texts put one after the other. *)
Definition join_texts (ta tb : pystr) : pystr :=
  if str_truthy ta then (if str_truthy tb then ta ++ newline ++ tb else ta) else tb.

(** A world whose framework agent returns [result]. *)
Definition returning_world (result : gmap string pyval) : World :=
  {| py_str := sample_str;
     get_conversation_context := fun _ => [];
     get_learner_tools := [search_tool];
     get_agent_tools := [explainer_tool; learner_tool];
     model_ainvoke := fun _ => Ok sample_answer;
     agent_run := fun _ _ => ([RunModelCall], Ok result) |}.

(** A world whose chat model returns [response]. *)
Definition model_world (response : pyval) : World :=
  {| py_str := sample_str;
     get_conversation_context := fun _ => [];
     get_learner_tools := [search_tool];
     get_agent_tools := [explainer_tool; learner_tool];
     model_ainvoke := fun _ => Ok response;
     agent_run := fun _ _ => ([RunModelCall], Raise transient_error) |}.

Definition image_block : pyval := PDict {[ "type" := PStr (py "image") ]}.

(** A framework result whose answer, after a tool output, is blank. *)
Definition blank_answer_result : gmap string pyval :=
  {[ "messages" :=
       PList ([PMsg Human (PStr sample_query);
               PMsg (Tool "firecrawl_search") (PStr (py "snippet"))]
              ++ [PMsg AI (PList [PStr (py "  ")])]) ]}.

(** * Properties *)

(** ** Strings *)

Example py_ascii : py "a b" = [97; 32; 98].
Proof. reflexivity. Qed.

Example py_curly : py "I’m" = [73; 8217; 109].
Proof. reflexivity. Qed.

Example format_field :
  format (py "a {x} b") [(py "x", py "1")] = Ok (py "a 1 b").
Proof. reflexivity. Qed.

Example format_no_field :
  format (py "noplace") [(py "context", py "zz")] = Ok (py "noplace").
Proof. reflexivity. Qed.

Example format_missing :
  format (py "{y}") [(py "x", py "1")] = Raise (KeyError (py "y")).
Proof. reflexivity. Qed.

Example strip_unicode : strip (py " 　a b
 ") = py "a b".
Proof. reflexivity. Qed.

(** ** The prompt templates format without error *)

Lemma explainer_prompt_format (context : pystr) :
  format EXPLAINER_AGENT_PROMPT [(py "context", context)] = Ok EXPLAINER_AGENT_PROMPT.
Proof. vm_compute. reflexivity. Qed.

Lemma learner_prompt_format (context : pystr) :
  is_ok (format LEARNER_AGENT_PROMPT [(py "context", context)]) = true.
Proof. vm_compute. reflexivity. Qed.

Lemma orchestrator_prompt_format (intent : pystr) :
  is_ok (format ORCHESTRATOR_PROMPT [(py "intent", intent)]) = true.
Proof. vm_compute. reflexivity. Qed.

(** [.format(context=...)] puts the context where the learner template
    has its one field, and [.format(intent=...)] does the same for the
    orchestrator template. *)
Lemma learner_prompt_shape (context : pystr) :
  format LEARNER_AGENT_PROMPT [(py "context", context)]
  = Ok (take 12124 LEARNER_AGENT_PROMPT ++ context ++ drop 12133 LEARNER_AGENT_PROMPT).
Proof. vm_compute. reflexivity. Qed.

Lemma orchestrator_prompt_shape (intent : pystr) :
  format ORCHESTRATOR_PROMPT [(py "intent", intent)]
  = Ok (take 1905 ORCHESTRATOR_PROMPT ++ intent ++ drop 1913 ORCHESTRATOR_PROMPT).
Proof. vm_compute. reflexivity. Qed.

Lemma is_ok_inv {A} (r : py_result A) : is_ok r = true → ∃ a, r = Ok a.
Proof. destruct r; [eauto | discriminate]. Qed.

Lemma explainer_get_prompt_ok (W : World) state :
  Explainer.get_prompt W state = Ok EXPLAINER_AGENT_PROMPT.
Proof. apply explainer_prompt_format. Qed.

Lemma learner_get_prompt_ok (W : World) state :
  ∃ prompt, Learner.get_prompt W state = Ok prompt.
Proof. apply is_ok_inv, learner_prompt_format. Qed.

Lemma orchestrator_get_prompt_ok (W : World) state :
  ∃ prompt, Orchestrator.get_prompt W state = Ok prompt.
Proof. apply is_ok_inv, orchestrator_prompt_format. Qed.

(** ** What a run of each [process_query] is, case by case *)

Ltac unfold_run :=
  unfold run, try_except, bind, the_state, lift, ret, logger_error,
    model_call, agent_call, record_event; cbn [conv_state trace].

Lemma explainer_run (W : World) (q : pystr) st :
  run (Explainer.process_query W q) st =
  let msgs := [PMsg System (PStr EXPLAINER_AGENT_PROMPT); PMsg Human (PStr q)] in
  let r := model_ainvoke W msgs in
  let log e := EvLogError "Explainer agent processing failed" (exc_str e) in
  match r with
  | Ok response =>
      match get_content response with
      | Ok content =>
          (Ok (success_envelope Explainer.get_result_key content),
           heap_of st [EvGenerate msgs r])
      | Raise e =>
          (Ok (failure_envelope Explainer.get_result_key e),
           heap_of st [EvGenerate msgs r; log e])
      end
  | Raise e =>
      if exc_is_Exception e
      then (Ok (failure_envelope Explainer.get_result_key e),
            heap_of st [EvGenerate msgs r; log e])
      else (Raise e, heap_of st [EvGenerate msgs r])
  end.
Proof.
  unfold Explainer.process_query. unfold_run.
  rewrite explainer_get_prompt_ok. cbn zeta.
  destruct (model_ainvoke W _) as [response | e] eqn:Hcall; cbn [app].
  - destruct response; reflexivity.
  - destruct (exc_is_Exception e); reflexivity.
Qed.

Lemma stripped_parts_raises (parts : list pyval) e :
  stripped_parts parts = Raise e → exc_is_Exception e = true.
Proof.
  induction parts as [| p rest IH]; cbn; [discriminate |].
  destruct p; try (intros [= <-]; reflexivity).
  destruct (stripped_parts rest); [discriminate |].
  intros [= <-]. by apply IH.
Qed.

Lemma extract_text_raises (W : World) message e :
  _extract_text_from_message W message = Raise e → exc_is_Exception e = true.
Proof.
  unfold _extract_text_from_message.
  destruct message; cbn; try (intros [= <-]; reflexivity).
  destruct message; try discriminate.
  destruct (stripped_parts _) eqn:Hparts; [discriminate |].
  intros [= <-]. by eapply stripped_parts_raises.
Qed.

Lemma final_output_raises (W : World) result e :
  final_output W result = Raise e → exc_is_Exception e = true.
Proof.
  unfold final_output, dict_item.
  destruct (result !! "messages") as [messages |]; [| intros [= <-]; reflexivity].
  destruct (last_item messages) as [final | e'] eqn:Hlast.
  - apply extract_text_raises.
  - intros [= <-]. destruct messages; cbn in Hlast;
      try (injection Hlast as <-; reflexivity).
    + destruct (last s); [discriminate | injection Hlast as <-; reflexivity].
    + destruct (last items); [discriminate | injection Hlast as <-; reflexivity].
Qed.

Lemma learner_run (W : World) (q : pystr) st :
  run (Learner.process_query W q) st =
  let a := learner_agent W st in
  let input := learner_input q in
  let inner := (agent_run W a input).1 in
  let r := (agent_run W a input).2 in
  let log e := EvLogError "Learner agent processing failed" (exc_str e) in
  match r with
  | Ok result =>
      match final_output W result with
      | Ok text =>
          (Ok (success_envelope Learner.get_result_key text),
           heap_of st [EvAgentRun a input inner r])
      | Raise e =>
          (Ok (failure_envelope Learner.get_result_key e),
           heap_of st [EvAgentRun a input inner r; log e])
      end
  | Raise e =>
      if exc_is_Exception e
      then (Ok (failure_envelope Learner.get_result_key e),
            heap_of st [EvAgentRun a input inner r; log e])
      else (Raise e, heap_of st [EvAgentRun a input inner r])
  end.
Proof.
  unfold Learner.process_query, learner_agent, learner_input. unfold_run.
  destruct (learner_get_prompt_ok W st) as [prompt ->]. cbn [prompt_of]. cbn zeta.
  destruct (agent_run W _ _) as [inner [result | e]]; cbn [fst snd app].
  - destruct (final_output W result) as [text | e] eqn:Hout.
    + unfold final_output in Hout.
      destruct (dict_item result "messages") as [messages |]; [| discriminate].
      destruct (last_item messages) as [final |]; [| discriminate].
      rewrite Hout. reflexivity.
    + pose proof (final_output_raises _ _ _ Hout) as Hexc.
      unfold final_output in Hout.
      destruct (dict_item result "messages") as [messages | e1].
      * destruct (last_item messages) as [final | e2].
        -- rewrite Hout, Hexc. reflexivity.
        -- injection Hout as ->. rewrite Hexc. reflexivity.
      * injection Hout as ->. rewrite Hexc. reflexivity.
  - destruct (exc_is_Exception e); reflexivity.
Qed.

Lemma orchestrator_run (W : World) (q : pystr) st :
  run (Orchestrator.process_query W q) st =
  let a := orchestrator_agent W st in
  let input := orchestrator_input st in
  let inner := (agent_run W a input).1 in
  let r := (agent_run W a input).2 in
  let log e := EvLogError "Orchestrator processing failed" (exc_str e) in
  match r with
  | Ok result =>
      (Ok (orchestrator_success result), heap_of st [EvAgentRun a input inner r])
  | Raise e =>
      if exc_is_Exception e
      then (Ok (failure_envelope Orchestrator.get_result_key e),
            heap_of st [EvAgentRun a input inner r; log e])
      else (Raise e, heap_of st [EvAgentRun a input inner r])
  end.
Proof.
  unfold Orchestrator.process_query, orchestrator_agent, orchestrator_input. unfold_run.
  destruct (orchestrator_get_prompt_ok W st) as [prompt ->]. cbn [prompt_of]. cbn zeta.
  destruct (agent_run W _ _) as [inner [result | e]]; cbn [fst snd app].
  - reflexivity.
  - destruct (exc_is_Exception e); reflexivity.
Qed.

(** ** Result envelopes *)

Lemma success_envelope_spec (k : agent_kind) payload :
  succeeded (success_envelope (get_result_key k) payload)
  ∧ errors_empty (success_envelope (get_result_key k) payload)
  ∧ success_envelope (get_result_key k) payload !! get_result_key k = Some payload.
Proof. destruct k; repeat split; reflexivity. Qed.

Lemma failure_envelope_spec (k : agent_kind) e :
  failed (failure_envelope (get_result_key k) e)
  ∧ failure_envelope (get_result_key k) e !! "error" = Some (PList [PStr (exc_str e)])
  ∧ failure_envelope (get_result_key k) e !! get_result_key k = Some PNone.
Proof. destruct k; repeat split; reflexivity. Qed.

Lemma orchestrator_success_spec result :
  succeeded (orchestrator_success result)
  ∧ errors_empty (orchestrator_success result)
  ∧ orchestrator_success result !! "orchestrator_result" = Some (PDict result)
  ∧ orchestrator_success result !! "messages"
    = Some (dict_get result "messages" (PList [])).
Proof. repeat split; reflexivity. Qed.

Lemma failed_not_succeeded env : failed env → succeeded env → False.
Proof. unfold failed, succeeded. congruence. Qed.

Lemma success_envelope_invariant (k : agent_kind) payload :
  envelope_invariant (get_result_key k) (success_envelope (get_result_key k) payload).
Proof.
  destruct (success_envelope_spec k payload) as (Hs & He & _). split.
  - intros Hf. destruct (failed_not_succeeded _ Hf Hs).
  - done.
Qed.

Lemma failure_envelope_invariant (k : agent_kind) e :
  envelope_invariant (get_result_key k) (failure_envelope (get_result_key k) e).
Proof.
  destruct (failure_envelope_spec k e) as (Hf & He & Hk). split.
  - intros _. split; [done |]. unfold errors_nonempty. eauto.
  - intros Hs. destruct (failed_not_succeeded _ Hf Hs).
Qed.

Lemma orchestrator_success_invariant result :
  envelope_invariant "orchestrator_result" (orchestrator_success result).
Proof.
  destruct (orchestrator_success_spec result) as (Hs & He & _). split.
  - intros Hf. destruct (failed_not_succeeded _ Hf Hs).
  - done.
Qed.

Ltac invert_trace :=
  repeat match goal with
    | H : generation_raised _ _ |- _ => destruct H as [(? & H) | (? & ? & ? & H)]
    | H : _ ∈ _ :: _ |- _ => apply elem_of_cons in H as [H | H]
    | H : _ ∈ [] |- _ => by apply elem_of_nil in H
    | H : EvGenerate _ _ = EvGenerate _ _ |- _ => injection H as ? ?
    | H : EvAgentRun _ _ _ _ = EvAgentRun _ _ _ _ |- _ => injection H as ? ? ? ?
    | H : _ = _ :> event |- _ => discriminate H
    end.

Lemma generate_event_raised msgs r rest e :
  r = Raise e → generation_raised (EvGenerate msgs r :: rest) e.
Proof. intros ->. left. exists msgs. apply elem_of_cons. by left. Qed.

Lemma agent_event_raised a input inner r rest e :
  r = Raise e → generation_raised (EvAgentRun a input inner r :: rest) e.
Proof. intros ->. right. exists a, input, inner. apply elem_of_cons. by left. Qed.

(** ** Classification of the runs *)

Lemma process_query_outcome (W : World) (k : agent_kind) (q : pystr) st :
  run_outcome k (run (process_query W k q) st).1
                (trace (run (process_query W k q) st).2)
  ∧ conv_state (run (process_query W k q) st).2 = st.
Proof.
  destruct k; cbn [process_query].
  - rewrite explainer_run. cbn zeta.
    destruct (model_ainvoke W _) as [response | e] eqn:Hcall.
    + destruct (get_content response) as [content | e] eqn:Hcontent;
        (split; [| reflexivity]); cbn [fst snd trace heap_of].
      * apply run_success.
        -- apply (success_envelope_spec ExplainerAgent).
        -- apply (success_envelope_invariant ExplainerAgent).
        -- intros e He. invert_trace. congruence.
      * apply (run_failure ExplainerAgent).
        -- destruct response; try (injection Hcontent as <-; reflexivity).
           discriminate.
        -- intros e' He'. invert_trace. congruence.
    + destruct (exc_is_Exception e) eqn:Hexc;
        (split; [| reflexivity]); cbn [fst snd trace heap_of].
      * apply (run_failure ExplainerAgent); [done |].
        intros e' He'. invert_trace. congruence.
      * apply run_propagated; [done | by apply generate_event_raised |].
        intros e' He'. invert_trace. congruence.
  - rewrite learner_run. cbn zeta.
    destruct (agent_run W _ _) as [inner [result | e]] eqn:Hcall; cbn [fst snd].
    + destruct (final_output W result) as [text | e] eqn:Hout;
        (split; [| reflexivity]); cbn [fst snd trace heap_of].
      * apply run_success.
        -- apply (success_envelope_spec LearnerAgent).
        -- apply (success_envelope_invariant LearnerAgent).
        -- intros e He. invert_trace. congruence.
      * apply (run_failure LearnerAgent).
        -- by eapply final_output_raises.
        -- intros e' He'. invert_trace. congruence.
    + destruct (exc_is_Exception e) eqn:Hexc;
        (split; [| reflexivity]); cbn [fst snd trace heap_of].
      * apply (run_failure LearnerAgent); [done |].
        intros e' He'. invert_trace. congruence.
      * apply run_propagated; [done | by apply agent_event_raised |].
        intros e' He'. invert_trace. congruence.
  - rewrite orchestrator_run. cbn zeta.
    destruct (agent_run W _ _) as [inner [result | e]] eqn:Hcall; cbn [fst snd].
    + split; [| reflexivity]. cbn [fst snd trace heap_of].
      apply run_success.
      * apply orchestrator_success_spec.
      * apply orchestrator_success_invariant.
      * intros e He. invert_trace. congruence.
    + destruct (exc_is_Exception e) eqn:Hexc;
        (split; [| reflexivity]); cbn [fst snd trace heap_of].
      * apply (run_failure OrchestratorAgent); [done |].
        intros e' He'. invert_trace. congruence.
      * apply run_propagated; [done | by apply agent_event_raised |].
        intros e' He'. invert_trace. congruence.
Qed.

(** ** Failures of the generation call *)

Lemma failing_world_raises (k : agent_kind) :
  generation_raised
    (trace (run (process_query failing_world k sample_query) None).2)
    transient_error.
Proof.
  destruct k; cbn [process_query].
  - rewrite explainer_run. by apply generate_event_raised.
  - rewrite learner_run. by apply agent_event_raised.
  - rewrite orchestrator_run. by apply agent_event_raised.
Qed.

Lemma generation_failure_is_caught_aux (W : World) (k : agent_kind) (q : pystr) st e :
  generation_raised (trace (run (process_query W k q) st).2) e →
  exc_is_Exception e = true →
  (run (process_query W k q) st).1 = Ok (failure_envelope (get_result_key k) e)
  ∧ ∀ e', (run (process_query W k q) st).1 ≠ Raise e'.
Proof.
  intros Hraised Hexc.
  destruct (process_query_outcome W k q st) as [Hout _].
  inversion Hout as [env tr Hs Hinv Hnone Heq | e0 tr He0 Huniq Heq
                    | e0 tr He0 Hr Huniq Heq].
  - destruct (Hnone e Hraised).
  - rewrite (Huniq e Hraised). split; [done |]. intros e'. discriminate.
  - rewrite (Huniq e Hraised) in Hexc. congruence.
Qed.

(** An exception that is not an [Exception] (a cancellation, a keyboard
    interrupt) is not caught: [except Exception] lets it through. *)
Lemma base_exception_propagates (W : World) (k : agent_kind) (q : pystr) st e :
  generation_raised (trace (run (process_query W k q) st).2) e →
  exc_is_Exception e = false →
  (run (process_query W k q) st).1 = Raise e.
Proof.
  intros Hraised Hexc.
  destruct (process_query_outcome W k q st) as [Hout _].
  inversion Hout as [env tr Hs Hinv Hnone Heq | e0 tr He0 Huniq Heq
                    | e0 tr He0 Hr Huniq Heq].
  - destruct (Hnone e Hraised).
  - rewrite (Huniq e Hraised) in Hexc. congruence.
  - by rewrite (Huniq e Hraised).
Qed.

(** C1, as amended.  Whichever agent runs ([k] ranges over the explainer,
    the learner and the orchestrator), whatever the query and the state:
    when the text-generation call of the run raises an exception [e] of
    the [Exception] hierarchy, the run of [process_query] returns an
    envelope ([Ok env], nothing propagates) with [success = False] and a
    non-empty [error] list, [[str(e)]]; when [e] is outside that
    hierarchy (a cancellation, a keyboard interrupt), [except Exception]
    does not catch it and [process_query] raises [e] itself. *)
Theorem generation_failure_is_returned (W : World) (k : agent_kind) (q : pystr) st e :
  generation_raised (trace (run (process_query W k q) st).2) e →
  (exc_is_Exception e = true →
   ∃ env, (run (process_query W k q) st).1 = Ok env
          ∧ failed env
          ∧ errors_nonempty env
          ∧ env !! "error" = Some (PList [PStr (exc_str e)]))
  ∧ (exc_is_Exception e = false →
     (run (process_query W k q) st).1 = Raise e).
Proof.
  intros Hraised. split.
  - intros Hexc.
    destruct (generation_failure_is_caught_aux W k q st e Hraised Hexc) as [Hrun _].
    destruct (failure_envelope_spec k e) as (Hf & Herr & _).
    eexists. split; [exact Hrun |]. split; [done |].
    split; [| done]. unfold errors_nonempty. eauto.
  - by apply base_exception_propagates.
Qed.

Lemma generation_failure_is_returned_witness :
  ∃ env, (run (process_query failing_world LearnerAgent sample_query) None).1 = Ok env
         ∧ failed env
         ∧ errors_nonempty env
         ∧ env !! "error" = Some (PList [PStr (exc_str transient_error)]).
Proof.
  apply (proj1 (generation_failure_is_returned failing_world LearnerAgent sample_query
                  None transient_error (failing_world_raises LearnerAgent))).
  reflexivity.
Defined.

Lemma cancelled_world_raises :
  generation_raised
    (trace (run (process_query cancelled_world ExplainerAgent sample_query) None).2)
    cancelled_error.
Proof.
  cbn [process_query]. rewrite explainer_run. by apply generate_event_raised.
Qed.

(** C1, the claim as stated fails: the generation call of the explainer
    raises [CancelledError], which is not an [Exception]; [process_query]
    returns no envelope and the exception propagates to the caller. *)
Lemma cancellation_propagates :
  generation_raised
    (trace (run (process_query cancelled_world ExplainerAgent sample_query) None).2)
    cancelled_error
  ∧ (run (process_query cancelled_world ExplainerAgent sample_query) None).1
    = Raise cancelled_error
  ∧ ¬ ∃ env, (run (process_query cancelled_world ExplainerAgent sample_query) None).1
             = Ok env.
Proof.
  assert ((run (process_query cancelled_world ExplainerAgent sample_query) None).1
          = Raise cancelled_error) as Hrun.
  { cbn [process_query]. rewrite explainer_run. reflexivity. }
  split; [exact cancelled_world_raises |]. split; [exact Hrun |].
  intros [env Henv]. rewrite Hrun in Henv. discriminate.
Qed.

(** C2.  Every envelope a [process_query] returns (orchestrator,
    explainer, learner) has a boolean [success]; if it is [False] the
    entry under the agent's result key is [None] and [error] is a
    non-empty list; if it is [True] the [error] list is empty. *)
Theorem returned_envelope_invariant (W : World) (k : agent_kind) (q : pystr) st env :
  (run (process_query W k q) st).1 = Ok env →
  (failed env ∨ succeeded env) ∧ envelope_invariant (get_result_key k) env.
Proof.
  intros Hrun.
  destruct (process_query_outcome W k q st) as [Hout _].
  rewrite Hrun in Hout.
  inversion Hout as [env' tr Hs Hinv Hnone Heq | e0 tr He0 Huniq Heq |].
  - split; [by right | done].
  - split; [left; apply failure_envelope_spec | apply failure_envelope_invariant].
Qed.

Lemma returned_envelope_invariant_witness :
  (failed (failure_envelope "orchestrator_result" transient_error)
   ∨ succeeded (failure_envelope "orchestrator_result" transient_error))
  ∧ envelope_invariant "orchestrator_result"
      (failure_envelope "orchestrator_result" transient_error).
Proof.
  apply (returned_envelope_invariant failing_world OrchestratorAgent sample_query None).
  cbn [process_query]. rewrite orchestrator_run. reflexivity.
Defined.

(** ** The explainer's single generation call *)

(** C3.  A run of [ExplainerAgent.process_query] makes exactly one call to
    the text-generation capability, [self.model.ainvoke] on the system
    prompt followed by the query; it runs no framework agent, hence no
    tool; and when the returned envelope has [success = True], its
    [explainer_agent_result] is the [content] of the response, unchanged. *)
Theorem explainer_calls_generation_once (W : World) (q : pystr) st :
  let msgs := [PMsg System (PStr EXPLAINER_AGENT_PROMPT); PMsg Human (PStr q)] in
  let tr := trace (run (Explainer.process_query W q) st).2 in
  List.filter is_generate tr = [EvGenerate msgs (model_ainvoke W msgs)]
  ∧ List.filter is_agent_run tr = []
  ∧ ∀ env, (run (Explainer.process_query W q) st).1 = Ok env →
           succeeded env →
           ∃ t content, model_ainvoke W msgs = Ok (PMsg t content)
                        ∧ env !! "explainer_agent_result" = Some content.
Proof.
  cbn zeta. rewrite explainer_run. cbn zeta.
  destruct (model_ainvoke W _) as [response | e] eqn:Hcall.
  - destruct (get_content response) as [content | e] eqn:Hcontent;
      cbn [fst snd trace heap_of].
    + repeat split.
      intros env [= <-] _. destruct response; try discriminate.
      injection Hcontent as ->. by eexists _, _.
    + repeat split.
      intros env [= <-] Hs.
      destruct (failed_not_succeeded _ (proj1 (failure_envelope_spec ExplainerAgent e)) Hs).
  - destruct (exc_is_Exception e); cbn [fst snd trace heap_of]; repeat split.
    + intros env [= <-] Hs.
      destruct (failed_not_succeeded _ (proj1 (failure_envelope_spec ExplainerAgent e)) Hs).
    + discriminate.
Qed.

Lemma explainer_calls_generation_once_witness :
  ∃ t content,
    model_ainvoke replying_world
      [PMsg System (PStr EXPLAINER_AGENT_PROMPT); PMsg Human (PStr sample_query)]
    = Ok (PMsg t content)
    ∧ success_envelope "explainer_agent_result" (PStr (py "An API is like a waiter."))
      !! "explainer_agent_result" = Some content.
Proof.
  apply (explainer_calls_generation_once replying_world sample_query None).
  - rewrite explainer_run. reflexivity.
  - reflexivity.
Defined.

(** ** Shape of the orchestrator's result *)

Lemma orchestrator_success_dom result :
  dom (orchestrator_success result)
  = {[ "success"; "orchestrator_result"; "messages"; "error" ]}.
Proof.
  unfold orchestrator_success, dict_literal. cbn [foldl fst snd].
  rewrite !dom_insert_L, dom_empty_L. set_solver.
Qed.

Lemma orchestrator_failure_dom e :
  dom (failure_envelope "orchestrator_result" e)
  = {[ "success"; "orchestrator_result"; "error" ]}.
Proof.
  unfold failure_envelope, dict_literal. cbn [foldl fst snd].
  rewrite !dom_insert_L, dom_empty_L. set_solver.
Qed.

(** C10.  The dict [OrchestratorAgent.process_query] returns has one of two
    shapes.  On success its keys are [success], [orchestrator_result],
    [messages] and [error], and [messages] holds the message list of the
    framework's result ([[]] when the result has none).  On failure its
    keys are [success], [orchestrator_result] and [error] only: there is
    no [messages] key. *)
Theorem orchestrator_result_shape (W : World) (q : pystr) st env :
  (run (Orchestrator.process_query W q) st).1 = Ok env →
  (succeeded env
   ∧ dom env = {[ "success"; "orchestrator_result"; "messages"; "error" ]}
   ∧ ∃ result,
       (agent_run W (orchestrator_agent W st) (orchestrator_input st)).2 = Ok result
       ∧ env !! "messages" = Some (dict_get result "messages" (PList [])))
  ∨ (failed env
     ∧ dom env = {[ "success"; "orchestrator_result"; "error" ]}
     ∧ env !! "messages" = None).
Proof.
  rewrite orchestrator_run. cbn zeta.
  destruct (agent_run W _ _) as [inner [result | e]]; cbn [fst snd].
  - intros [= <-]. left. split; [apply orchestrator_success_spec |].
    split; [apply orchestrator_success_dom |].
    exists result. split; [done | apply orchestrator_success_spec].
  - destruct (exc_is_Exception e); [| discriminate].
    intros [= <-]. right. split; [apply (failure_envelope_spec OrchestratorAgent) |].
    split; [apply orchestrator_failure_dom | reflexivity].
Qed.

Lemma orchestrator_result_shape_witness :
  (succeeded (failure_envelope "orchestrator_result" transient_error)
   ∧ dom (failure_envelope "orchestrator_result" transient_error)
     = {[ "success"; "orchestrator_result"; "messages"; "error" ]}
   ∧ ∃ result,
       (agent_run failing_world (orchestrator_agent failing_world None)
          (orchestrator_input None)).2 = Ok result
       ∧ failure_envelope "orchestrator_result" transient_error !! "messages"
         = Some (dict_get result "messages" (PList [])))
  ∨ (failed (failure_envelope "orchestrator_result" transient_error)
     ∧ dom (failure_envelope "orchestrator_result" transient_error)
       = {[ "success"; "orchestrator_result"; "error" ]}
     ∧ failure_envelope "orchestrator_result" transient_error !! "messages" = None).
Proof.
  apply (orchestrator_result_shape failing_world sample_query None).
  rewrite orchestrator_run. reflexivity.
Defined.

(** ** Text extraction *)

Lemma lstrip_nil (s : pystr) : lstrip s = [] ↔ forallb isspace s = true.
Proof.
  induction s as [| c s IH]; cbn; [done |].
  destruct (isspace c); cbn; [done |]. split; discriminate.
Qed.

Lemma forallb_lstrip (s : pystr) : forallb isspace (lstrip s) = forallb isspace s.
Proof.
  induction s as [| c s IH]; cbn; [done |].
  destruct (isspace c) eqn:Hc; cbn; [done |]. by rewrite Hc.
Qed.

Lemma forallb_rev {A} (f : A → bool) (l : list A) :
  forallb f (rev l) = forallb f l.
Proof.
  induction l as [| x l IH]; cbn; [done |].
  rewrite forallb_app, IH. cbn. rewrite andb_true_r. apply andb_comm.
Qed.

Lemma existsb_negb_forallb {A} (f : A → bool) (l : list A) :
  existsb (fun x => negb (f x)) l = negb (forallb f l).
Proof.
  induction l as [| x l IH]; cbn; [done |].
  rewrite IH. by destruct (f x).
Qed.

Lemma str_truthy_nil (s : pystr) : str_truthy s = false ↔ s = [].
Proof. destruct s; cbn; split; done. Qed.

(** [p.strip()] is true exactly when [p] has a character that is not
    whitespace. *)
Lemma strip_truthy (p : pystr) :
  str_truthy (strip p) = contains_non_whitespace p.
Proof.
  unfold contains_non_whitespace. rewrite existsb_negb_forallb.
  rewrite <- (forallb_lstrip p), <- (forallb_rev isspace (lstrip p)).
  unfold strip, rstrip.
  destruct (forallb isspace (rev (lstrip p))) eqn:Hall; cbn.
  - apply lstrip_nil in Hall. by rewrite Hall.
  - destruct (lstrip (rev (lstrip p))) as [| c rest] eqn:Hl.
    + apply lstrip_nil in Hl. congruence.
    + destruct (rev (c :: rest)) eqn:Hrev; [| done].
      apply (f_equal (@length _)) in Hrev. rewrite length_rev in Hrev. discriminate.
Qed.

Lemma stripped_parts_well_typed (W : World) (blocks : list pyval) :
  Forall text_is_str blocks →
  stripped_parts (map (block_part W) blocks)
  = Ok (List.filter contains_non_whitespace (map (block_text W) blocks)).
Proof.
  induction 1 as [| block blocks Hblock _ IH]; [done |].
  cbn [map List.filter].
  assert (block_part W block = PStr (block_text W block)) as ->.
  { destruct block; try reflexivity.
    cbn in *. unfold dict_get. destruct (d !! "text") as [[] |]; done. }
  cbn [stripped_parts]. rewrite IH, strip_truthy. reflexivity.
Qed.

Lemma extract_text_non_str (W : World) (t : msg_type) d v rest :
  d !! "text" = Some v → (∀ s, v ≠ PStr s) →
  _extract_text_from_message W (PMsg t (PList (PDict d :: rest)))
  = Raise (AttributeError v "strip").
Proof.
  intros Hv Hns. unfold _extract_text_from_message. cbn.
  unfold dict_get. rewrite Hv. destruct v; try reflexivity. by destruct (Hns s).
Qed.

(** C9, as amended.  For every message whose dict blocks carry a [str]
    under ['text'] (or no ['text'] at all), [_extract_text_from_message]
    returns, and returns what the description says: for list content the
    newline-join of the block texts that contain a non-whitespace
    character, for any other content the content itself.  Being a
    function of the message, the result is the same on every call. *)
Theorem extract_text_well_typed (W : World) (t : msg_type) (content : pyval) :
  blocks_well_typed content →
  _extract_text_from_message W (PMsg t content) = Ok (described_text W content).
Proof.
  intros Hwt. unfold _extract_text_from_message. cbn [get_content].
  destruct content; try reflexivity.
  cbn in Hwt. rewrite (stripped_parts_well_typed W _ Hwt). reflexivity.
Qed.

Lemma two_block_message_well_typed :
  blocks_well_typed
    (PList [PDict {[ "type" := PStr (py "text"); "text" := PStr (py "Deadlock") ]};
            PStr (py "   ");
            PDict {[ "type" := PStr (py "image") ]};
            PStr (py "is a cycle.")]).
Proof. cbn. repeat constructor. Qed.

Lemma extract_text_well_typed_witness :
  _extract_text_from_message replying_world two_block_message
  = Ok (PStr (py "Deadlock
is a cycle.")).
Proof.
  unfold two_block_message.
  rewrite (extract_text_well_typed replying_world AI _ two_block_message_well_typed).
  vm_compute. reflexivity.
Defined.

(** C9, the claim as stated fails: on a dict block whose ['text'] is
    [None] the generator calls [None.strip()] and the function raises
    [AttributeError] instead of returning. *)
Lemma extract_text_not_total :
  _extract_text_from_message replying_world none_text_message
  = Raise (AttributeError PNone "strip")
  ∧ ¬ ∃ v, _extract_text_from_message replying_world none_text_message = Ok v.
Proof.
  assert (_extract_text_from_message replying_world none_text_message
          = Raise (AttributeError PNone "strip")) as H by reflexivity.
  split; [exact H |]. intros [v Hv]. rewrite H in Hv. discriminate.
Qed.

(** ** Exceptions raised inside the orchestrator's agent *)

Lemma agent_run_raised_generation tr e :
  agent_run_raised tr e → generation_raised tr e.
Proof. intros H. by right. Qed.

(** What a [process_query] raises, it did not make: it is the exception,
    outside the [Exception] hierarchy, that the call into the world
    raised. *)
Lemma process_query_raises_nothing_new (W : World) (k : agent_kind) (q : pystr) st e :
  (run (process_query W k q) st).1 = Raise e →
  exc_is_Exception e = false
  ∧ generation_raised (trace (run (process_query W k q) st).2) e.
Proof.
  intros Hrun. destruct (process_query_outcome W k q st) as [Hout _].
  rewrite Hrun in Hout. inversion Hout; subst. done.
Qed.

Lemma orchestrator_raise_origin (W : World) (q : pystr) st e :
  (run (Orchestrator.process_query W q) st).1 = Raise e →
  exc_is_Exception e = false
  ∧ agent_run_raised (trace (run (Orchestrator.process_query W q) st).2) e.
Proof.
  rewrite orchestrator_run. cbn zeta.
  destruct (agent_run W _ _) as [inner [result | e0]]; cbn [fst snd]; [discriminate |].
  destruct (exc_is_Exception e0) eqn:Hexc; [discriminate |].
  intros [= ->]. split; [done |].
  eexists _, _, _. apply elem_of_cons. by left.
Qed.

(** C5, as amended.  When an [Exception] [e] is raised during the
    orchestrator's turn (a failed lookup of the responder raising
    [UnknownIntentError] is such a case), [process_query] catches it and
    returns the failed envelope with [error = [str(e)]], raising nothing;
    and whatever [process_query] does raise is an exception outside the
    [Exception] hierarchy that the agent run itself raised, so it never
    raises an [OrchestratorError] of its own. *)
Theorem orchestrator_recovers_every_exception (W : World) (q : pystr) st :
  (∀ e,
     agent_run_raised (trace (run (Orchestrator.process_query W q) st).2) e →
     exc_is_Exception e = true →
     (run (Orchestrator.process_query W q) st).1
     = Ok (failure_envelope "orchestrator_result" e)
     ∧ failed (failure_envelope "orchestrator_result" e)
     ∧ failure_envelope "orchestrator_result" e !! "error"
       = Some (PList [PStr (exc_str e)]))
  ∧ (∀ e',
       (run (Orchestrator.process_query W q) st).1 = Raise e' →
       exc_is_Exception e' = false
       ∧ agent_run_raised (trace (run (Orchestrator.process_query W q) st).2) e').
Proof.
  split.
  - intros e Hraised Hexc.
    destruct (generation_failure_is_caught_aux W OrchestratorAgent q st e
                (agent_run_raised_generation _ _ Hraised) Hexc) as [Hrun _].
    split; [exact Hrun |].
    split; apply (failure_envelope_spec OrchestratorAgent).
  - apply orchestrator_raise_origin.
Qed.

Lemma unknown_intent_world_raises :
  agent_run_raised
    (trace (run (Orchestrator.process_query unknown_intent_world sample_query) None).2)
    unknown_intent_error.
Proof.
  rewrite orchestrator_run. exists (orchestrator_agent unknown_intent_world None),
    (orchestrator_input None), [RunModelCall]. apply elem_of_cons. by left.
Qed.

Lemma orchestrator_recovers_every_exception_witness :
  (run (Orchestrator.process_query unknown_intent_world sample_query) None).1
  = Ok (failure_envelope "orchestrator_result" unknown_intent_error)
  ∧ failed (failure_envelope "orchestrator_result" unknown_intent_error)
  ∧ failure_envelope "orchestrator_result" unknown_intent_error !! "error"
    = Some (PList [PStr (exc_str unknown_intent_error)]).
Proof.
  apply (proj1 (orchestrator_recovers_every_exception unknown_intent_world
                  sample_query None) unknown_intent_error).
  - apply unknown_intent_world_raises.
  - reflexivity.
Defined.

(** C5, the claim as stated fails: with [UnknownIntentError] raised inside
    the turn, [process_query] does not raise an [OrchestratorError] (it
    raises nothing); it returns the failed envelope. *)
Lemma unknown_intent_is_recovered :
  agent_run_raised
    (trace (run (Orchestrator.process_query unknown_intent_world sample_query) None).2)
    unknown_intent_error
  ∧ exc_class unknown_intent_error = "UnknownIntentError"
  ∧ (run (Orchestrator.process_query unknown_intent_world sample_query) None).1
    = Ok (failure_envelope "orchestrator_result" unknown_intent_error)
  ∧ ¬ ∃ e', (run (Orchestrator.process_query unknown_intent_world sample_query) None).1
            = Raise e' ∧ exc_class e' = "OrchestratorError".
Proof.
  assert ((run (Orchestrator.process_query unknown_intent_world sample_query) None).1
          = Ok (failure_envelope "orchestrator_result" unknown_intent_error)) as Hrun.
  { rewrite orchestrator_run. reflexivity. }
  split; [apply unknown_intent_world_raises |].
  split; [reflexivity |]. split; [exact Hrun |].
  intros (e' & He' & _). rewrite Hrun in He'. discriminate.
Qed.

(** ** The learner and its framework agent *)

Lemma learner_trace (W : World) (q : pystr) st :
  let a := learner_agent W st in
  let input := learner_input q in
  let tr := trace (run (Learner.process_query W q) st).2 in
  List.filter is_agent_run tr
  = [EvAgentRun a input (agent_run W a input).1 (agent_run W a input).2]
  ∧ List.filter is_generate tr = [].
Proof.
  cbn zeta. rewrite learner_run. cbn zeta.
  destruct (agent_run W _ _) as [inner [result | e]]; cbn [fst snd].
  - destruct (final_output W result); done.
  - destruct (exc_is_Exception e); done.
Qed.

Lemma learner_turn_follows_agent_run_aux (W : World) (q : pystr) st :
  let r := (agent_run W (learner_agent W st) (learner_input q)).2 in
  (∀ result text,
     r = Ok result → final_output W result = Ok text →
     (run (Learner.process_query W q) st).1
     = Ok (success_envelope "learner_agent_result" text))
  ∧ (∀ e,
       r = Raise e → exc_is_Exception e = true →
       (run (Learner.process_query W q) st).1
       = Ok (failure_envelope "learner_agent_result" e)).
Proof.
  cbn zeta. rewrite learner_run. cbn zeta. split.
  - intros result text -> ->. reflexivity.
  - intros e -> ->. reflexivity.
Qed.

(** C6, as amended.  The learner has no handling of its own for a failing
    retrieval tool: how its turn ends is decided by how the framework's
    agent run ends, whatever happened inside that run.  When the run
    returns a result whose last message yields text, the envelope is the
    successful one with that text; when the run raises an [Exception]
    [e], the envelope is the failed one with [error = [str(e)]]. *)
Theorem learner_turn_follows_agent_run (W : World) (q : pystr) st :
  let r := (agent_run W (learner_agent W st) (learner_input q)).2 in
  (∀ result text,
     r = Ok result → final_output W result = Ok text →
     (run (Learner.process_query W q) st).1
     = Ok (success_envelope "learner_agent_result" text))
  ∧ (∀ e,
       r = Raise e → exc_is_Exception e = true →
       (run (Learner.process_query W q) st).1
       = Ok (failure_envelope "learner_agent_result" e)).
Proof. exact (learner_turn_follows_agent_run_aux W q st). Qed.

Lemma tool_absorbed_world_output :
  final_output tool_absorbed_world
    (dict_literal
       [("messages",
         PList (messages_of (learner_input sample_query)
                ++ [PMsg AI (PList []);
                    PMsg (Tool "firecrawl_search") (PStr (py "Error: connection refused"));
                    PMsg AI (PStr (py "Deadlock is a circular wait."))]))])
  = Ok (PStr (py "Deadlock is a circular wait.")).
Proof. vm_compute. reflexivity. Qed.

Lemma learner_turn_follows_agent_run_witness :
  (run (Learner.process_query tool_absorbed_world sample_query) None).1
  = Ok (success_envelope "learner_agent_result" (PStr (py "Deadlock is a circular wait.")))
  ∧ (run (Learner.process_query tool_failure_world sample_query) None).1
    = Ok (failure_envelope "learner_agent_result" retrieval_error).
Proof.
  split.
  - apply (proj1 (learner_turn_follows_agent_run tool_absorbed_world sample_query None)
             _ _ eq_refl tool_absorbed_world_output).
  - apply (proj2 (learner_turn_follows_agent_run tool_failure_world sample_query None)
             _ eq_refl eq_refl).
Defined.

(** C6, the claim as stated fails: the retrieval tool fails during the
    turn, its exception leaves the framework's run, and the learner
    returns [success = False]. *)
Lemma tool_failure_fails_the_turn :
  tool_failed (trace (run (Learner.process_query tool_failure_world sample_query) None).2)
  ∧ (run (Learner.process_query tool_failure_world sample_query) None).1
    = Ok (failure_envelope "learner_agent_result" retrieval_error)
  ∧ failed (failure_envelope "learner_agent_result" retrieval_error)
  ∧ ¬ succeeded (failure_envelope "learner_agent_result" retrieval_error).
Proof.
  assert (run (Learner.process_query tool_failure_world sample_query) None
          = (Ok (failure_envelope "learner_agent_result" retrieval_error),
             heap_of None
               [EvAgentRun (learner_agent tool_failure_world None)
                  (learner_input sample_query)
                  [RunModelCall; RunToolCall "firecrawl_search" false]
                  (Raise retrieval_error);
                EvLogError "Learner agent processing failed" (exc_str retrieval_error)]))
    as Hrun.
  { rewrite learner_run. reflexivity. }
  rewrite Hrun. cbn [fst snd trace heap_of].
  split.
  { eexists _, _, _, _, "firecrawl_search".
    split; [apply elem_of_cons; left; reflexivity |].
    apply elem_of_cons. right. apply elem_of_cons. left. reflexivity. }
  split; [reflexivity |]. split; [reflexivity |].
  intros Hs. by apply (failed_not_succeeded (failure_envelope "learner_agent_result" retrieval_error)).
Qed.

(** C4, as amended.  The learner has no loop, bound or timeout error of
    its own.  A run of [process_query] makes exactly one call to the
    framework's agent, built from the learner tools and the formatted
    prompt and given the query as its single human message, and makes no
    direct generation call.  If that call raises an [Exception] [e] (the
    framework's error at its step limit is one), the run returns the
    failed envelope with [error = [str(e)]] and raises nothing. *)
Theorem learner_delegates_the_loop (W : World) (q : pystr) st :
  let a := learner_agent W st in
  let input := learner_input q in
  let tr := trace (run (Learner.process_query W q) st).2 in
  List.filter is_agent_run tr
  = [EvAgentRun a input (agent_run W a input).1 (agent_run W a input).2]
  ∧ List.filter is_generate tr = []
  ∧ input !! "messages" = Some (PList [PMsg Human (PStr q)])
  ∧ ∀ e, (agent_run W a input).2 = Raise e → exc_is_Exception e = true →
         (run (Learner.process_query W q) st).1
         = Ok (failure_envelope "learner_agent_result" e)
         ∧ failure_envelope "learner_agent_result" e !! "error"
           = Some (PList [PStr (exc_str e)]).
Proof.
  cbn zeta. destruct (learner_trace W q st) as [Hruns Hgen].
  split; [exact Hruns |]. split; [exact Hgen |]. split; [reflexivity |].
  intros e He Hexc. split; [| reflexivity].
  by apply (proj2 (learner_turn_follows_agent_run_aux W q st)).
Qed.

Lemma learner_delegates_the_loop_witness :
  (run (Learner.process_query recursion_limit_world sample_query) None).1
  = Ok (failure_envelope "learner_agent_result" recursion_limit_error)
  ∧ failure_envelope "learner_agent_result" recursion_limit_error !! "error"
    = Some (PList [PStr (exc_str recursion_limit_error)]).
Proof.
  apply (learner_delegates_the_loop recursion_limit_world sample_query None);
    reflexivity.
Defined.

(** C4, the claim as stated fails: when the framework stops a run that
    does not converge, the learner neither raises a
    [ResponderTimeoutError] nor reports one; it returns the failed
    envelope carrying the text of the framework's own error. *)
Lemma no_responder_timeout_error :
  (agent_run recursion_limit_world (learner_agent recursion_limit_world None)
     (learner_input sample_query)).2 = Raise recursion_limit_error
  ∧ (run (Learner.process_query recursion_limit_world sample_query) None).1
    = Ok (failure_envelope "learner_agent_result" recursion_limit_error)
  ∧ failure_envelope "learner_agent_result" recursion_limit_error !! "error"
    = Some (PList [PStr (py "Recursion limit of 25 reached without hitting a stop condition.")])
  ∧ contains (py "ResponderTimeoutError") (exc_str recursion_limit_error) = false
  ∧ ¬ ∃ e, (run (Learner.process_query recursion_limit_world sample_query) None).1
           = Raise e ∧ exc_class e = "ResponderTimeoutError".
Proof.
  assert ((run (Learner.process_query recursion_limit_world sample_query) None).1
          = Ok (failure_envelope "learner_agent_result" recursion_limit_error)) as Hrun.
  { rewrite learner_run. reflexivity. }
  split; [reflexivity |]. split; [exact Hrun |].
  split; [vm_compute; reflexivity |]. split; [vm_compute; reflexivity |].
  intros (e & He & _). rewrite Hrun in He. discriminate.
Qed.

(** ** Routing *)

Lemma orchestrator_returns_agent_result (W : World) (q : pystr) st result :
  (agent_run W (orchestrator_agent W st) (orchestrator_input st)).2 = Ok result →
  run (Orchestrator.process_query W q) st
  = (Ok (orchestrator_success result),
     heap_of st [EvAgentRun (orchestrator_agent W st) (orchestrator_input st)
                   (agent_run W (orchestrator_agent W st) (orchestrator_input st)).1
                   (Ok result)]).
Proof. intros Hrun. rewrite orchestrator_run. cbn zeta. rewrite Hrun. reflexivity. Qed.

Lemma envelope_selected_success result :
  envelope_selected (orchestrator_success result) = selected_agent result.
Proof.
  unfold envelope_selected, selected_agent, messages_of.
  rewrite (proj2 (proj2 (proj2 (orchestrator_success_spec result)))).
  destruct (dict_get result "messages" (PList [])); reflexivity.
Qed.

(** C7, as amended.  The orchestrator applies no classification and no
    tie-break of its own, for an utterance with both signals as for any
    other: when the framework's agent returns, [process_query] returns
    the successful envelope whose [orchestrator_result] is the agent's
    result and whose [messages] show the very agent tool that ran in the
    agent's result, [explainer_agent] as well as [learner_agent]. *)
Theorem routing_is_the_agents_choice (W : World) (q : pystr) st result :
  (agent_run W (orchestrator_agent W st) (orchestrator_input st)).2 = Ok result →
  ∃ env,
    (run (Orchestrator.process_query W q) st).1 = Ok env
    ∧ succeeded env
    ∧ env !! "orchestrator_result" = Some (PDict result)
    ∧ envelope_selected env = selected_agent result.
Proof.
  intros Hrun. rewrite (orchestrator_returns_agent_result W q st result Hrun).
  exists (orchestrator_success result).
  destruct (orchestrator_success_spec result) as (Hs & _ & Hr & _).
  split; [reflexivity |]. split; [exact Hs |]. split; [exact Hr |].
  apply envelope_selected_success.
Qed.

Lemma first_rule_both_signals :
  (agent_run first_rule_world
     (orchestrator_agent first_rule_world (state_with both_signals_utterance))
     (orchestrator_input (state_with both_signals_utterance))).2
  = Ok both_signals_result.
Proof. vm_compute. reflexivity. Qed.

Lemma routing_is_the_agents_choice_witness :
  ∃ env,
    (run (Orchestrator.process_query first_rule_world sample_query)
       (state_with both_signals_utterance)).1 = Ok env
    ∧ succeeded env
    ∧ env !! "orchestrator_result" = Some (PDict both_signals_result)
    ∧ envelope_selected env = selected_agent both_signals_result.
Proof.
  apply (routing_is_the_agents_choice first_rule_world sample_query
           (state_with both_signals_utterance) both_signals_result).
  exact first_rule_both_signals.
Defined.

(** C7, the claim as stated fails: the utterance of the turn says
    "explain simply" and mentions "exams", the agent acts on the first
    rule of its prompt and calls [explainer_agent], and [process_query]
    returns a successful envelope with that routing: the exam responder
    is not selected. *)
Lemma both_signals_routed_to_explainer :
  utterance (messages_of (orchestrator_input (state_with both_signals_utterance)))
  = Some (py both_signals_utterance)
  ∧ contains (py "explain simply") (py both_signals_utterance) = true
  ∧ contains (py "exams") (py both_signals_utterance) = true
  ∧ (run (Orchestrator.process_query first_rule_world sample_query)
       (state_with both_signals_utterance)).1
    = Ok (orchestrator_success both_signals_result)
  ∧ envelope_selected (orchestrator_success both_signals_result)
    = Some "explainer_agent"
  ∧ envelope_selected (orchestrator_success both_signals_result)
    ≠ Some "learner_agent".
Proof.
  assert (envelope_selected (orchestrator_success both_signals_result)
          = Some "explainer_agent") as Hsel by (vm_compute; reflexivity).
  split; [vm_compute; reflexivity |].
  split; [vm_compute; reflexivity |]. split; [vm_compute; reflexivity |].
  split.
  { rewrite (orchestrator_returns_agent_result _ _ _ _ first_rule_both_signals).
    reflexivity. }
  split; [exact Hsel |]. rewrite Hsel. discriminate.
Qed.

(** * Further properties of the agents *)

(** ** Prompts *)

(** X1.  The explainer never uses the state: its template has no
    replacement field, so the conversation context is dropped by [format]
    and two runs on the same query return the same result and make the
    same calls, whatever the two states are. *)
Theorem explainer_ignores_state (W : World) (q : pystr) st st' :
  Explainer.get_prompt W st = Ok EXPLAINER_AGENT_PROMPT
  ∧ (run (Explainer.process_query W q) st).1 = (run (Explainer.process_query W q) st').1
  ∧ trace (run (Explainer.process_query W q) st).2
    = trace (run (Explainer.process_query W q) st').2.
Proof.
  split; [apply explainer_get_prompt_ok |].
  rewrite !explainer_run. cbn zeta.
  destruct (model_ainvoke W _) as [response | e].
  - destruct (get_content response); done.
  - destruct (exc_is_Exception e); done.
Qed.

(** X2.  [LearnerAgent.get_prompt] never raises and returns the template
    with its [{context}] field replaced by the conversation context: the
    text of [get_conversation_context(state)], or the empty string when
    the state is [None] or an empty dict.  The context is inserted as it
    is, braces included. *)
Theorem learner_prompt_inserts_context (W : World) st :
  LEARNER_AGENT_PROMPT
  = learner_prompt_prefix ++ py "{context}" ++ learner_prompt_suffix
  ∧ Learner.get_prompt W st
    = Ok (learner_prompt_prefix ++ context_of W st ++ learner_prompt_suffix)
  ∧ context_of W None = []
  ∧ context_of W (Some ∅) = [].
Proof.
  split; [vm_compute; reflexivity |].
  split; [apply learner_prompt_shape |].
  split; reflexivity.
Qed.

Lemma orchestrator_get_prompt_intent (W : World) st :
  Orchestrator.get_prompt W st
  = format ORCHESTRATOR_PROMPT [(py "intent", intent_text W st)].
Proof.
  unfold Orchestrator.get_prompt, intent_text, prior_intent, dict_get.
  destruct (truthy_state st) as [d |]; [| reflexivity].
  destruct (d !! "user_intent"); reflexivity.
Qed.

(** X3.  [OrchestratorAgent.get_prompt] never raises and returns the
    template with its [{intent}] field replaced by [str(user_intent)];
    the text is [unknown] when the state is [None], an empty dict or has
    no [user_intent] key, while a key that is present is shown as it is
    ([None] included). *)
Theorem orchestrator_prompt_shows_intent (W : World) st :
  ORCHESTRATOR_PROMPT
  = orchestrator_prompt_prefix ++ py "{intent}" ++ orchestrator_prompt_suffix
  ∧ Orchestrator.get_prompt W st
    = Ok (orchestrator_prompt_prefix ++ intent_text W st ++ orchestrator_prompt_suffix)
  ∧ (prior_intent st = None → intent_text W st = py "unknown")
  ∧ (∀ d v, st = Some d → d !! "user_intent" = Some v → intent_text W st = to_str W v).
Proof.
  split; [vm_compute; reflexivity |].
  split; [rewrite orchestrator_get_prompt_intent; apply orchestrator_prompt_shape |].
  split.
  - unfold intent_text. intros ->. reflexivity.
  - intros d v -> Hv. unfold intent_text, prior_intent, truthy_state.
    destruct (decide (size d = 0%nat)) as [Hsize | _].
    + apply map_size_empty_iff in Hsize. subst d. rewrite lookup_empty in Hv. discriminate.
    + by rewrite Hv.
Qed.

Lemma orchestrator_prompt_shows_intent_witness :
  intent_text replying_world (Some {[ "user_intent" := PNone ]}) = py "None"
  ∧ intent_text replying_world (Some {[ "messages" := PList [] ]}) = py "unknown".
Proof.
  split.
  - apply (proj2 (proj2 (proj2 (orchestrator_prompt_shows_intent replying_world
                                   (Some {[ "user_intent" := PNone ]}))))
             {[ "user_intent" := PNone ]} PNone); reflexivity.
  - apply (proj1 (proj2 (proj2 (orchestrator_prompt_shows_intent replying_world
                                   (Some {[ "messages" := PList [] ]}))))).
    vm_compute. reflexivity.
Defined.

(** ** Calls and logging *)

(** X4.  [OrchestratorAgent.process_query] does not use its [query]
    argument: two runs on the same state give the same result, the same
    calls and the same log, whatever the two queries are.  What the
    framework agent reads is the [messages] list of the state. *)
Theorem orchestrator_ignores_query (W : World) (q q' : pystr) st :
  run (Orchestrator.process_query W q) st = run (Orchestrator.process_query W q') st.
Proof. by rewrite !orchestrator_run. Qed.

(** X5.  A run of [OrchestratorAgent.process_query] makes exactly one call
    to the framework's agent and no direct call to the chat model.  The
    agent is built with the tools of [get_agent_tools()], and its input
    has the single key [messages], holding the [messages] entry of the
    state, or the empty list when the state is [None], an empty dict or
    has no such entry. *)
Theorem orchestrator_single_agent_run (W : World) (q : pystr) st :
  let a := orchestrator_agent W st in
  let input := orchestrator_input st in
  let tr := trace (run (Orchestrator.process_query W q) st).2 in
  List.filter is_agent_run tr
  = [EvAgentRun a input (agent_run W a input).1 (agent_run W a input).2]
  ∧ List.filter is_generate tr = []
  ∧ agent_tools a = get_agent_tools W
  ∧ dom input = {[ "messages" ]}
  ∧ input !! "messages"
    = Some (match truthy_state st with
            | Some d => default (PList []) (d !! "messages")
            | None => PList []
            end).
Proof.
  cbn zeta. rewrite orchestrator_run. cbn zeta.
  split; [| split; [| split; [reflexivity | split]]].
  - destruct (agent_run W _ _) as [inner [result | e]]; cbn [fst snd]; [done |].
    destruct (exc_is_Exception e); done.
  - destruct (agent_run W _ _) as [inner [result | e]]; cbn [fst snd]; [done |].
    destruct (exc_is_Exception e); done.
  - unfold orchestrator_input, dict_literal. cbn [foldl fst snd].
    rewrite dom_insert_L, dom_empty_L. apply (right_id_L ∅ (∪)).
  - unfold orchestrator_input, dict_literal, dict_get. cbn [foldl fst snd].
    rewrite lookup_insert_eq.
    destruct (truthy_state st) as [d |]; [| reflexivity].
    destruct (d !! "messages"); reflexivity.
Qed.

Lemma failure_envelope_error_inv (k : agent_kind) e (s : pystr) :
  failure_envelope (get_result_key k) e !! "error" = Some (PList [PStr s]) →
  s = exc_str e.
Proof.
  destruct (failure_envelope_spec k e) as (_ & Herr & _).
  rewrite Herr. by intros [= <-].
Qed.

Lemma run_cases (W : World) (k : agent_kind) (q : pystr) st :
  (∃ env, (run (process_query W k q) st).1 = Ok env ∧ succeeded env
          ∧ List.filter is_log (trace (run (process_query W k q) st).2) = [])
  ∨ (∃ e, (run (process_query W k q) st).1 = Ok (failure_envelope (get_result_key k) e)
          ∧ List.filter is_log (trace (run (process_query W k q) st).2)
            = [EvLogError (log_message k) (exc_str e)])
  ∨ (∃ e, (run (process_query W k q) st).1 = Raise e
          ∧ List.filter is_log (trace (run (process_query W k q) st).2) = []).
Proof.
  destruct k; cbn [process_query get_result_key log_message].
  - rewrite explainer_run. cbn zeta.
    destruct (model_ainvoke W _) as [response | e].
    + destruct (get_content response) as [content | e].
      * left. eexists. split; [reflexivity |].
        split; [apply (success_envelope_spec ExplainerAgent) | reflexivity].
      * right; left. by exists e.
    + destruct (exc_is_Exception e).
      * right; left. by exists e.
      * right; right. by exists e.
  - rewrite learner_run. cbn zeta.
    destruct (agent_run W _ _) as [inner [result | e]]; cbn [fst snd].
    + destruct (final_output W result) as [text | e].
      * left. eexists. split; [reflexivity |].
        split; [apply (success_envelope_spec LearnerAgent) | reflexivity].
      * right; left. by exists e.
    + destruct (exc_is_Exception e).
      * right; left. by exists e.
      * right; right. by exists e.
  - rewrite orchestrator_run. cbn zeta.
    destruct (agent_run W _ _) as [inner [result | e]]; cbn [fst snd].
    + left. eexists. split; [reflexivity |].
      split; [apply orchestrator_success_spec | reflexivity].
    + destruct (exc_is_Exception e).
      * right; left. by exists e.
      * right; right. by exists e.
Qed.

(** X6.  Each [process_query] logs exactly when it returns a failed
    envelope.  A failed envelope comes with one [logger.error] record,
    carrying the agent's message and the very text that is the single
    entry of the envelope's [error] list; a successful envelope and a
    propagated exception come with no log record. *)
Theorem error_logged_once (W : World) (k : agent_kind) (q : pystr) st :
  let r := (run (process_query W k q) st).1 in
  let logs := List.filter is_log (trace (run (process_query W k q) st).2) in
  (∀ env, r = Ok env → failed env →
          ∃ s, env !! "error" = Some (PList [PStr s])
               ∧ logs = [EvLogError (log_message k) s])
  ∧ (∀ env, r = Ok env → succeeded env → logs = [])
  ∧ (∀ e, r = Raise e → logs = []).
Proof.
  cbn zeta.
  destruct (run_cases W k q st)
    as [(env0 & Hr & Hs & Hl) | [(e0 & Hr & Hl) | (e0 & Hr & Hl)]];
    rewrite Hr, Hl; (split; [| split]).
  - intros env [= <-] Hf. destruct (failed_not_succeeded _ Hf Hs).
  - reflexivity.
  - discriminate.
  - intros env [= <-] _. exists (exc_str e0).
    split; [apply failure_envelope_spec | reflexivity].
  - intros env [= <-] Hs.
    destruct (failed_not_succeeded _ (proj1 (failure_envelope_spec k e0)) Hs).
  - discriminate.
  - discriminate.
  - discriminate.
  - reflexivity.
Qed.

Lemma error_logged_once_witness :
  ∃ s, failure_envelope "learner_agent_result" transient_error !! "error"
       = Some (PList [PStr s])
       ∧ List.filter is_log
           (trace (run (process_query failing_world LearnerAgent sample_query) None).2)
         = [EvLogError "Learner agent processing failed" s].
Proof.
  apply (proj1 (error_logged_once failing_world LearnerAgent sample_query None)).
  - cbn [process_query]. rewrite learner_run. reflexivity.
  - reflexivity.
Defined.

Lemma extract_text_well_typed_aux (W : World) (t : msg_type) (content : pyval) :
  blocks_well_typed content →
  _extract_text_from_message W (PMsg t content) = Ok (described_text W content).
Proof.
  intros Hwt. unfold _extract_text_from_message. cbn [get_content].
  destruct content; try reflexivity.
  cbn in Hwt. rewrite (stripped_parts_well_typed W _ Hwt). reflexivity.
Qed.

(** ** Malformed and empty answers *)

Lemma learner_after_return (W : World) (q : pystr) st result :
  (agent_run W (learner_agent W st) (learner_input q)).2 = Ok result →
  (run (Learner.process_query W q) st).1
  = match final_output W result with
    | Ok text => Ok (success_envelope "learner_agent_result" text)
    | Raise e => Ok (failure_envelope "learner_agent_result" e)
    end.
Proof.
  intros Hrun. rewrite learner_run. cbn zeta. rewrite Hrun.
  destruct (final_output W result); reflexivity.
Qed.

(** X7.  When the framework's result has no [messages] key,
    [result["messages"]] raises [KeyError] inside the [try] and the
    learner returns the failed envelope whose [error] is [["'messages'"]],
    the text of that [KeyError]. *)
Theorem learner_missing_messages (W : World) (q : pystr) st result :
  (agent_run W (learner_agent W st) (learner_input q)).2 = Ok result →
  result !! "messages" = None →
  (run (Learner.process_query W q) st).1
  = Ok (failure_envelope "learner_agent_result" (KeyError (py "messages")))
  ∧ failure_envelope "learner_agent_result" (KeyError (py "messages")) !! "error"
    = Some (PList [PStr (py "'messages'")]).
Proof.
  intros Hrun Hkey. rewrite (learner_after_return W q st result Hrun).
  unfold final_output, dict_item. rewrite Hkey.
  split; [reflexivity | vm_compute; reflexivity].
Qed.

Lemma learner_missing_messages_witness :
  (run (Learner.process_query (returning_world ∅) sample_query) None).1
  = Ok (failure_envelope "learner_agent_result" (KeyError (py "messages")))
  ∧ failure_envelope "learner_agent_result" (KeyError (py "messages")) !! "error"
    = Some (PList [PStr (py "'messages'")]).
Proof.
  apply (learner_missing_messages (returning_world ∅) sample_query None ∅);
    reflexivity.
Defined.

(** X8.  When the framework's result has an empty [messages] list,
    [[-1]] raises [IndexError] inside the [try] and the learner returns
    the failed envelope whose [error] is [["list index out of range"]]. *)
Theorem learner_empty_messages (W : World) (q : pystr) st result :
  (agent_run W (learner_agent W st) (learner_input q)).2 = Ok result →
  result !! "messages" = Some (PList []) →
  (run (Learner.process_query W q) st).1
  = Ok (failure_envelope "learner_agent_result" (IndexError "list index out of range"))
  ∧ failure_envelope "learner_agent_result" (IndexError "list index out of range")
    !! "error" = Some (PList [PStr (py "list index out of range")]).
Proof.
  intros Hrun Hkey. rewrite (learner_after_return W q st result Hrun).
  unfold final_output, dict_item. rewrite Hkey.
  split; reflexivity.
Qed.

Lemma learner_empty_messages_witness :
  (run (Learner.process_query (returning_world {[ "messages" := PList [] ]})
          sample_query) None).1
  = Ok (failure_envelope "learner_agent_result" (IndexError "list index out of range"))
  ∧ failure_envelope "learner_agent_result" (IndexError "list index out of range")
    !! "error" = Some (PList [PStr (py "list index out of range")]).
Proof.
  apply (learner_empty_messages (returning_world {[ "messages" := PList [] ]})
           sample_query None {[ "messages" := PList [] ]}); reflexivity.
Defined.

(** X9.  The learner's payload is read from the last message of the
    framework's result and from nothing else: whatever messages come
    before it (the query, tool requests, tool outputs), when the content
    of the last one is well typed the envelope is the successful one with
    the text extracted from that content.  An answer that extracts to the
    empty string is still a success. *)
Theorem learner_payload_is_last_message (W : World) (q : pystr) st result
    (before : list pyval) (t : msg_type) (content : pyval) :
  (agent_run W (learner_agent W st) (learner_input q)).2 = Ok result →
  result !! "messages" = Some (PList (before ++ [PMsg t content])) →
  blocks_well_typed content →
  (run (Learner.process_query W q) st).1
  = Ok (success_envelope "learner_agent_result" (described_text W content)).
Proof.
  intros Hrun Hkey Hwt. rewrite (learner_after_return W q st result Hrun).
  unfold final_output, dict_item. rewrite Hkey. cbn [last_item].
  rewrite last_snoc. by rewrite (extract_text_well_typed_aux W t content Hwt).
Qed.

Lemma learner_payload_is_last_message_witness :
  (run (Learner.process_query (returning_world blank_answer_result) sample_query) None).1
  = Ok (success_envelope "learner_agent_result"
          (described_text (returning_world blank_answer_result)
             (PList [PStr (py "  ")]))).
Proof.
  apply (learner_payload_is_last_message (returning_world blank_answer_result)
           sample_query None blank_answer_result
           [PMsg Human (PStr sample_query);
            PMsg (Tool "firecrawl_search") (PStr (py "snippet"))] AI
           (PList [PStr (py "  ")])).
  - reflexivity.
  - reflexivity.
  - cbn. repeat constructor.
Defined.

(** X10.  What the explainer returns is decided by the object the chat
    model returns, not by its text: a message object gives the successful
    envelope with its [content] as payload, whatever that content is (an
    empty string or [None] as well); any other object has no [content]
    attribute and gives the failed envelope with the text of the
    [AttributeError]. *)
Theorem explainer_outcome_by_response (W : World) (q : pystr) st (response : pyval) :
  model_ainvoke W [PMsg System (PStr EXPLAINER_AGENT_PROMPT); PMsg Human (PStr q)]
  = Ok response →
  (run (Explainer.process_query W q) st).1
  = match response with
    | PMsg _ content => Ok (success_envelope "explainer_agent_result" content)
    | other =>
        Ok (failure_envelope "explainer_agent_result" (AttributeError other "content"))
    end.
Proof.
  intros Hcall. rewrite explainer_run. cbn zeta. rewrite Hcall.
  destruct response; reflexivity.
Qed.

Lemma explainer_outcome_by_response_witness :
  (run (Explainer.process_query (model_world (PMsg AI (PStr []))) sample_query) None).1
  = Ok (success_envelope "explainer_agent_result" (PStr [])).
Proof.
  apply (explainer_outcome_by_response (model_world (PMsg AI (PStr [])))
           sample_query None (PMsg AI (PStr []))).
  reflexivity.
Defined.

(** ** Shape and inputs of the responders *)

Lemma responder_run_display (W : World) (k : agent_kind) (q : pystr) st :
  k ≠ OrchestratorAgent →
  (∃ v p w, (run (process_query W k q) st).1
            = Ok (dict_literal [("success", v); (get_result_key k, p); ("error", w)]))
  ∨ (∃ e, (run (process_query W k q) st).1 = Raise e).
Proof.
  intros Hk. destruct k; [| | done]; cbn [process_query get_result_key].
  - rewrite explainer_run. cbn zeta.
    destruct (model_ainvoke W _) as [response | e].
    + destruct (get_content response); left; by eexists _, _, _.
    + destruct (exc_is_Exception e); [left; by eexists _, _, _ | right; by eexists].
  - rewrite learner_run. cbn zeta.
    destruct (agent_run W _ _) as [inner [result | e]]; cbn [fst snd].
    + destruct (final_output W result); left; by eexists _, _, _.
    + destruct (exc_is_Exception e); [left; by eexists _, _, _ | right; by eexists].
Qed.

(** X11.  The dict the explainer or the learner returns always has the
    same three keys, [success], the agent's result key and [error], on
    success and on failure alike. *)
Theorem responder_envelope_keys (W : World) (k : agent_kind) (q : pystr) st env :
  k ≠ OrchestratorAgent →
  (run (process_query W k q) st).1 = Ok env →
  dom env = {[ "success"; get_result_key k; "error" ]}.
Proof.
  intros Hk Hrun.
  destruct (responder_run_display W k q st Hk) as [(v & p & w & Hr) | (e & Hr)];
    rewrite Hr in Hrun; [| discriminate].
  injection Hrun as <-.
  unfold dict_literal. cbn [foldl fst snd].
  rewrite !dom_insert_L, dom_empty_L. set_solver.
Qed.

Lemma responder_envelope_keys_witness :
  dom (failure_envelope "learner_agent_result" transient_error)
  = {[ "success"; get_result_key LearnerAgent; "error" ]}.
Proof.
  apply (responder_envelope_keys failing_world LearnerAgent sample_query None).
  - discriminate.
  - cbn [process_query]. rewrite learner_run. reflexivity.
Defined.

(** X12.  The state reaches the learner only through the text of the
    conversation context: the framework agent is given the query as its
    one human message, never the messages of the state, and two states
    with the same context text give the same result.  [None] and the
    empty dict are such a pair. *)
Theorem learner_state_only_through_context (W : World) (q : pystr) st st' :
  context_of W st = context_of W st' →
  (run (Learner.process_query W q) st).1 = (run (Learner.process_query W q) st').1
  ∧ trace (run (Learner.process_query W q) st).2
    = trace (run (Learner.process_query W q) st').2
  ∧ learner_input q !! "messages" = Some (PList [PMsg Human (PStr q)]).
Proof.
  intros Hctx.
  assert (learner_agent W st = learner_agent W st') as Hagent.
  { unfold learner_agent, Learner.get_prompt. fold (context_of W st).
    fold (context_of W st'). by rewrite Hctx. }
  rewrite !learner_run. cbn zeta. rewrite Hagent.
  split; [| split; [| reflexivity]].
  - destruct (agent_run W _ _) as [inner [result | e]]; cbn [fst snd].
    + destruct (final_output W result); reflexivity.
    + destruct (exc_is_Exception e); reflexivity.
  - destruct (agent_run W _ _) as [inner [result | e]]; cbn [fst snd].
    + destruct (final_output W result); reflexivity.
    + destruct (exc_is_Exception e); reflexivity.
Qed.

Lemma learner_state_only_through_context_witness :
  (run (Learner.process_query replying_world sample_query) None).1
  = (run (Learner.process_query replying_world sample_query) (Some ∅)).1
  ∧ trace (run (Learner.process_query replying_world sample_query) None).2
    = trace (run (Learner.process_query replying_world sample_query) (Some ∅)).2
  ∧ learner_input sample_query !! "messages"
    = Some (PList [PMsg Human (PStr sample_query)]).
Proof.
  apply (learner_state_only_through_context replying_world sample_query None (Some ∅)).
  reflexivity.
Defined.

(** ** More on [_extract_text_from_message] *)

Lemma block_part_is_str (W : World) (block : pyval) :
  text_is_str block ↔ ∃ s, block_part W block = PStr s.
Proof.
  destruct block; cbn; try (split; [eauto | done]).
  unfold dict_get. destruct (d !! "text") as [v |]; [| split; [eauto | done]].
  destruct v; split; try done; try (intros [s Hs]; discriminate); eauto.
Qed.

Lemma block_part_text (W : World) (block : pyval) (s : pystr) :
  block_part W block = PStr s → block_text W block = s.
Proof.
  destruct block; cbn; try (intros [= <-]; reflexivity).
  unfold dict_get. destruct (d !! "text") as [v |]; [| intros [= <-]; reflexivity].
  intros ->. reflexivity.
Qed.

Lemma stripped_parts_ok (W : World) (blocks : list pyval) :
  is_ok (stripped_parts (map (block_part W) blocks)) = true ↔ Forall text_is_str blocks.
Proof.
  induction blocks as [| block blocks IH]; cbn [map].
  - split; [constructor | reflexivity].
  - split.
    + intros Hok. cbn [stripped_parts] in Hok.
      destruct (block_part W block) eqn:Hpart; try discriminate.
      constructor; [apply (block_part_is_str W); eauto |].
      apply IH. destruct (stripped_parts _); [reflexivity | discriminate].
    + intros Hall. apply Forall_cons in Hall as [Hblock Hrest].
      apply (block_part_is_str W) in Hblock as [s ->]. cbn [stripped_parts].
      apply IH in Hrest. destruct (stripped_parts _); [reflexivity | discriminate].
Qed.

(** X13.  On list content [_extract_text_from_message] returns exactly
    when every dict block holds a [str] under ['text'] or has no ['text']
    key; otherwise it raises.  String blocks and blocks of any other type
    never make it raise. *)
Theorem extract_text_returns_iff (W : World) (t : msg_type) (blocks : list pyval) :
  is_ok (_extract_text_from_message W (PMsg t (PList blocks))) = true
  ↔ Forall text_is_str blocks.
Proof.
  rewrite <- (stripped_parts_ok W). unfold _extract_text_from_message.
  cbn [get_content]. destruct (stripped_parts _); reflexivity.
Qed.

Lemma extract_text_returns_iff_witness :
  is_ok (_extract_text_from_message replying_world
           (PMsg AI (PList [PInt 7; PStr (py "a"); image_block]))) = true.
Proof.
  apply (proj2 (extract_text_returns_iff replying_world AI
                  [PInt 7; PStr (py "a"); image_block])).
  cbn. repeat constructor.
Defined.

Lemma stripped_parts_drop_blank (W : World) (before after : list pyval) block (s : pystr) :
  block_part W block = PStr s → contains_non_whitespace s = false →
  stripped_parts (map (block_part W) (before ++ block :: after))
  = stripped_parts (map (block_part W) (before ++ after)).
Proof.
  intros Hpart Hblank. induction before as [| b before IH]; cbn [app map].
  - rewrite Hpart. cbn [stripped_parts]. rewrite strip_truthy, Hblank.
    destruct (stripped_parts _); reflexivity.
  - cbn [stripped_parts]. destruct (block_part W b); try reflexivity.
    by rewrite IH.
Qed.

(** X14.  A block that contributes only whitespace (a blank string block,
    a dict block whose ['text'] is blank or missing) has no effect: the
    function gives the same outcome, result or exception, with the block
    and without it, wherever the block stands in the list. *)
Theorem blank_block_is_dropped (W : World) (t : msg_type)
    (before after : list pyval) block (s : pystr) :
  block_part W block = PStr s →
  contains_non_whitespace s = false →
  _extract_text_from_message W (PMsg t (PList (before ++ block :: after)))
  = _extract_text_from_message W (PMsg t (PList (before ++ after))).
Proof.
  intros Hpart Hblank. unfold _extract_text_from_message. cbn [get_content].
  by rewrite (stripped_parts_drop_blank W before after block s Hpart Hblank).
Qed.

Lemma blank_block_is_dropped_witness :
  _extract_text_from_message replying_world
    (PMsg AI (PList ([PStr (py "a")] ++ image_block :: [PStr (py "b")])))
  = _extract_text_from_message replying_world
      (PMsg AI (PList ([PStr (py "a")] ++ [PStr (py "b")]))).
Proof.
  apply (blank_block_is_dropped replying_world AI [PStr (py "a")] [PStr (py "b")]
           image_block []); reflexivity.
Defined.

Lemma non_whitespace_nonempty (s : pystr) :
  contains_non_whitespace s = true → s ≠ [].
Proof. by destruct s. Qed.

Lemma join_nil (sep : pystr) (parts : list pystr) :
  Forall (fun p => p ≠ []) parts → join sep parts = [] → parts = [].
Proof.
  destruct 1 as [| p rest Hp Hrest]; [done |]. cbn.
  destruct rest; [done |]. intros Happ. by destruct p.
Qed.

Lemma join_cons (sep p q : pystr) (rest : list pystr) :
  join sep (p :: q :: rest) = p ++ sep ++ join sep (q :: rest).
Proof. reflexivity. Qed.

Lemma join_app (sep : pystr) (xs ys : list pystr) :
  join sep (xs ++ ys)
  = match xs, ys with
    | [], _ => join sep ys
    | _, [] => join sep xs
    | _, _ => join sep xs ++ sep ++ join sep ys
    end.
Proof.
  induction xs as [| x xs IH]; [done |].
  destruct ys as [| y ys]; [by rewrite app_nil_r |].
  destruct xs as [| x' xs]; [reflexivity |].
  rewrite <- !app_comm_cons, !join_cons.
  rewrite app_comm_cons, IH. by rewrite <- !app_assoc.
Qed.

Lemma kept_parts_nonempty (W : World) (blocks : list pyval) :
  Forall (fun p => p ≠ [])
    (List.filter contains_non_whitespace (map (block_text W) blocks)).
Proof.
  apply Forall_forall. intros p Hp. apply list_elem_of_In, filter_In in Hp as [_ Hp].
  by apply non_whitespace_nonempty.
Qed.

Lemma filter_nil_iff {A} (f : A → bool) (l : list A) :
  List.filter f l = [] ↔ Forall (fun x => f x = false) l.
Proof.
  induction l as [| x l IH]; cbn; [split; [constructor | done] |].
  destruct (f x) eqn:Hx.
  - split; [discriminate |]. intros H. apply Forall_cons in H as [H _]. congruence.
  - rewrite IH. split; [by constructor | intros H; by apply Forall_cons in H as [_ H]].
Qed.

(** X15.  For well-typed list content the extracted text is the empty
    string exactly when every block contributes only whitespace; the
    empty list of blocks is the first such case. *)
Theorem extract_text_empty_iff (W : World) (t : msg_type) (blocks : list pyval) :
  Forall text_is_str blocks →
  (_extract_text_from_message W (PMsg t (PList blocks)) = Ok (PStr [])
   ↔ Forall (fun block => contains_non_whitespace (block_text W block) = false) blocks).
Proof.
  intros Hwt. rewrite (extract_text_well_typed_aux W t (PList blocks) Hwt).
  cbn [described_text]. rewrite <- Forall_map with (f := block_text W)
    (P := fun s => contains_non_whitespace s = false).
  rewrite <- filter_nil_iff. split.
  - intros [= Hjoin].
    eapply join_nil; [apply kept_parts_nonempty | exact Hjoin].
  - intros ->. reflexivity.
Qed.

Lemma extract_text_empty_iff_witness :
  _extract_text_from_message replying_world
    (PMsg AI (PList [PStr (py "  "); image_block])) = Ok (PStr []).
Proof.
  apply (proj2 (extract_text_empty_iff replying_world AI
                  [PStr (py "  "); image_block] ltac:(cbn; repeat constructor))).
  repeat constructor.
Defined.

Lemma join_truthy (W : World) (blocks : list pyval) :
  str_truthy (join newline
                (List.filter contains_non_whitespace (map (block_text W) blocks)))
  = match List.filter contains_non_whitespace (map (block_text W) blocks) with
    | [] => false
    | _ :: _ => true
    end.
Proof.
  pose proof (kept_parts_nonempty W blocks) as Hne.
  destruct (List.filter _ _) as [| p rest] eqn:Hkept; [reflexivity |].
  destruct (join newline (p :: rest)) eqn:Hjoin; [| reflexivity].
  by apply (join_nil newline _ Hne) in Hjoin.
Qed.

(** X16.  Extraction composes over concatenation of well-typed block
    lists: the text of [a ++ b] is the text of [a], a newline and the
    text of [b], and just the other text when one of the two is empty, so
    no newline is ever added at either end. *)
Theorem extract_text_app (W : World) (t : msg_type) (a b : list pyval) :
  Forall text_is_str a → Forall text_is_str b →
  ∃ ta tb,
    _extract_text_from_message W (PMsg t (PList a)) = Ok (PStr ta)
    ∧ _extract_text_from_message W (PMsg t (PList b)) = Ok (PStr tb)
    ∧ _extract_text_from_message W (PMsg t (PList (a ++ b)))
      = Ok (PStr (join_texts ta tb)).
Proof.
  intros Ha Hb.
  rewrite (extract_text_well_typed_aux W t (PList a) Ha).
  rewrite (extract_text_well_typed_aux W t (PList b) Hb).
  rewrite (extract_text_well_typed_aux W t (PList (a ++ b)));
    [| by apply Forall_app].
  eexists _, _. split; [reflexivity |]. split; [reflexivity |].
  cbn [described_text]. f_equal. f_equal.
  unfold join_texts. rewrite !join_truthy.
  rewrite map_app, List.filter_app, join_app.
  fold newline.
  destruct (List.filter _ (map (block_text W) a)) as [| x xs];
    destruct (List.filter _ (map (block_text W) b)) as [| y ys]; reflexivity.
Qed.

Lemma extract_text_app_witness :
  ∃ ta tb,
    _extract_text_from_message replying_world (PMsg AI (PList [PStr (py "a")]))
    = Ok (PStr ta)
    ∧ _extract_text_from_message replying_world (PMsg AI (PList [image_block]))
      = Ok (PStr tb)
    ∧ _extract_text_from_message replying_world
        (PMsg AI (PList ([PStr (py "a")] ++ [image_block])))
      = Ok (PStr (join_texts ta tb)).
Proof.
  apply (extract_text_app replying_world AI [PStr (py "a")] [image_block]);
    cbn; repeat constructor.
Defined.

(** The sample [str()] prints integers as Python does. *)
Example sample_str_int :
  sample_str (PInt 7) = py "7" ∧ sample_str (PInt (-12)) = py "-12"
  ∧ sample_str (PInt 0) = py "0".
Proof. repeat split; reflexivity. Qed.
